(* ===== verification/_CoqProject ===== *)
-Q . S2P
Prelude.v
JsValue.v
Glob.v
Rules.v
Config.v
EslintRc.v
Encode.v
Cascade.v
SpecShape.v
Variants.v
