(* ===== verification/Prelude.v ===== *)
(** * A verification development of the ESLint configuration of babylon-app

    The repository contributes one source file, [src/.eslintrc.js]: a
    CommonJS module whose export is an ESLint "eslintrc" configuration
    object with a single field [overrides].  That list holds one override
    block whose [files] is the glob ["src/**/*.{js,vue,jsx}"] and whose
    [rules] object is empty (its only entry, ["no-console": "warn"], is
    commented out).  The file is inert data: what it means is fixed by the
    program that reads it, the external ESLint loader.  Spec section 6
    names that loader as the file's only interface, so the development
    models the literal as written and, marked as modelled from the spec,
    the parts of the loader that give the literal its meaning.

    ** Parts of the system and how they interact

    - The configuration literal (src/.eslintrc.js, lines 1-12).  File
      [JsValue.v]: JavaScript values as an inductive type [jvalue] (object
      literals as association lists in source order, arrays as lists), the
      property read of an object, and the literal itself, built from one
      definition per syntactic part ([files_js] for line 5, [rules_js] for
      lines 7-9, [override_js] for lines 4-10, [eslintrc_js] for the whole
      export).
    - The glob matcher the loader applies to [files] (minimatch with the
      options [{dot: true, matchBase: true}]).  File [Glob.v]: brace
      expansion, the split of a pattern into path segments, segment
      patterns with [*], [?] and literal characters, the globstar [**]
      segment, the guard of "." and ".." segments, and matchBase.  The
      executable matcher is proved equal to an inductive matching relation.
    - Rule configurations and their merge (eslintrc's
      [mergeRuleConfigs]).  File [Rules.v]: severities, the normal array
      form of a rule setting, the merge that adopts the first setting found
      and completes a bare severity with the options of a later one.  An
      abstract specification of the effective setting is stated and the
      merge is proved to refine it.
    - The loader (eslintrc's [ConfigArrayFactory] normalisation,
      [OverrideTester.create] and [OverrideTester.test], [extractConfig],
      [isAdditionalTargetPath]).  File [Config.v]: the typed configuration
      records, the decoder from a [jvalue] to them with its error results,
      the path of a file relative to the directory of the configuration,
      the selection of the override blocks that apply to a file and the
      rules in force for it, and whether a directory walk lints the file.
    - The repository's configuration and what it does.  File [EslintRc.v]:
      the decoded configuration, the characterisation of the files its
      pattern selects, the rules it puts in force (none), the effect the
      commented-out rule would have, and the files a directory walk lints.
    - Writing a configuration back as an object literal.  File [Encode.v]:
      the printer [config_to_js], the inverse of the loader's decoding on
      well-formed configurations.
    - The cascade of configuration files up the directory tree (ESLint's
      [CascadingConfigArrayFactory._loadConfigInAncestors]).  File
      [Cascade.v]: a file system as the configuration file of each
      directory, the walk from a directory to its ancestors that stops at a
      file with [root: true], at the home directory and at the file
      system's root, as a function ([loadConfigInAncestors]) and as a step
      relation ([walk_step]); [repo_fs] places the repository's
      .eslintrc.js (src/.eslintrc.js of this checkout) in the repository's
      own directory, whose "src" folder its comments name.
    - The data model of the spec (sections 3 and 8).  File [SpecShape.v]:
      the shape a configuration must have as a proposition
      ([spec_shape]), its executable check with a reflection lemma, and
      the spec's reading of an object of that shape ([spec_config]).
    - Edits of the literal the source invites.  File [Variants.v]: a
      second override block after the repository's ([two_blocks_js]),
      line 5 as any one pattern ([eslintrc_js_files], JsValue.v) and as a
      pattern without "/" ([eslintrc_js_basename]).

    The interaction is one-way: the loader decodes the literal
    ([Config.decode_config]), builds a tester per override from the glob
    matcher ([Glob.minimatch]), and for a file merges the rules of the
    blocks that apply ([Rules.mergeRuleConfigs]).  The loader reaches the
    matcher through the typeclass [Matcher] of [Config.v]: the testers and
    the rule extraction are defined in a section over any instance, and
    [minimatch_matcher] is the instance the repository's theorems use.

    ** What the theorems show

    - Selection (EslintRc.v): the pattern selects exactly the files under
      "src" ending in ".js", ".vue" or ".jsx" ([src_pattern_selects]); the
      loaded block applies to such files below the configuration's
      directory ([src_block_applies]).
    - Lint targets ([lint_targets]): a directory walk lints the ".js"
      files everywhere and, because of the block, the selected files;
      were line 5 a pattern ending with "*", the block would add no lint
      target ([wildcard_block_adds_no_targets]).
    - Rules (EslintRc.v): no rule is in force for any file
      ([eslintrc_rules_none]), the file leaves the rules of outer
      configurations unchanged ([eslintrc_transparent_in_cascade]), and
      line 8, were it enabled, would set "no-console" to "warn" on the
      selected files ([example_rule_effect]), completed with outer options
      ([example_rule_over_outer]).
    - The cascade (Cascade.v): the repository's file, setting no [root],
      lets the walk go on from the repository's directory to the
      directories above ([src_config_continues_cascade]), so the rules in
      force there are those of the configurations above
      ([cascade_rules_from_ancestors]) unless a [root: true] file above
      ends the walk ([root_config_isolates]), and a malformed [root] above
      fails the walk for the repository too ([cascade_parent_schema_error]);
      every walk from a directory of the repository ends within one step
      per path segment plus one ([repo_walk_bounded]).  The step relation
      reaches the result the function computes ([walk_reaches_ancestors]).
    - Rule settings (Rules.v): the merge fails exactly when an element
      sets an [Object.prototype] name of length 1 to an array with options,
      and otherwise refines its specification ([extract_rules_refines]);
      the severity in force for a plain name is that of the
      highest-precedence setting ([severity_first_found]); a severity is
      in 0..2 except under ["constructor"] and ["__proto__"]
      ([getRuleSeverity_bounds]); a later override block wins over an
      earlier one on the same files ([later_block_wins], Variants.v).
    - The spec (SpecShape.v): on every object of the shape of section 8
      the loader's decoding is the spec's reading ([decode_refines_spec]);
      the loader accepts line 5 exactly when it is a string or a non-empty
      array of strings, the spec only in the second case
      ([line5_files_accepted]).
    - Line 5 (Variants.v): for every single pattern, the load's outcome:
      no tester for the empty pattern, an error for an absolute pattern or
      one with "..", else a tester of that pattern
      ([line5_pattern_outcome]); a pattern without "/" applies at any
      depth through matchBase ([basename_pattern_applies]).
    - Round trips, types and errors (Encode.v, Config.v): decoding a
      written configuration gives it back whenever each override has a
      [files] pattern ([decode_config_to_js]), which every decoded
      configuration has ([decode_config_wf]); every tester the loader
      builds has only non-empty, relative patterns without ".." and the
      configuration's directory as base ([load_elements_wf]); an unknown
      property rejects the whole object ([decode_config_unknown_key]).

    ** Findings

    The comment of line 5 says the block restricts checking to "src"; the
    block restricts nothing (".js" files elsewhere are still linted) and
    only adds ".vue" and ".jsx" files.  Since the file sets no [root], the
    configurations of the directories above the repository, up to the
    home directory, apply to its files.  The loader accepts edits that
    break the shape the spec requires (a [files] string, the empty
    pattern, which makes the block apply to every file).

    ** This file

    The prelude holds what the component files share: the scope
    [eslint_scope], the result type of fallible operations with its bind
    notation, the suffix-search combinator used by both kinds of wildcard,
    string and list lemmas, and the hint database [eslint].

    ** Bounds and fuel

    No definition takes fuel: every matcher recurses structurally on the
    pattern, and the wildcard search on the input, so every operation is
    total and the theorems about results are unconditional.  The cascade
    recurses on the parent directory, which is not a subterm: it is
    defined with Equations by well-founded recursion on the length of the
    path, and its step relation is shown to take at most one step per
    segment plus one through the measure [walk_measure].

    ** Not modelled

    The cache, the EACCES handling, the personal configuration file and
    the deprecation warnings of the cascade; the contents of the
    configuration files above the repository, which are arbitrary in every
    theorem; the base configuration elided by the comment on line 2,
    parser and plugin loading, the rules themselves, minimatch's character
    classes, extglobs, escapes, nested brace groups and brace ranges (the
    repository's pattern has none), and Windows path separators.  A key
    ["__proto__"] written in an object literal sets the literal's
    prototype in JavaScript; [jvalue] reads it as an ordinary property
    (the merge skips it as eslintrc does, and the repository's literal
    has none).  [toLowerCase] is modelled on ASCII text.  The order of
    [Object.keys] is that of [map_to_list]; no outcome depends on it. *)

From Stdlib Require Export String Ascii.
From stdpp Require Export base list gmap strings.

Declare Scope eslint_scope.
Delimit Scope eslint_scope with eslint.
Open Scope eslint_scope.

Create HintDb eslint discriminated.
Create Rewrite HintDb eslint_rw.

(** ** Results of fallible operations *)

Inductive result (E A : Type) : Type :=
| Ok (a : A)
| Err (e : E).
Arguments Ok {E A} a.
Arguments Err {E A} e.

Definition result_bind {E A B} (r : result E A) (k : A -> result E B) : result E B :=
  match r with
  | Ok a => k a
  | Err e => Err e
  end.

Notation "x <-? c ;; k" := (result_bind c (fun x => k))
  (at level 100, c at next level, right associativity) : eslint_scope.

Lemma result_bind_Ok {E A B} (r : result E A) (k : A -> result E B) b :
  result_bind r k = Ok b <-> exists a, r = Ok a /\ k a = Ok b.
Proof. destruct r; simpl; naive_solver. Qed.

(** A loop whose body is fallible stops at the first error: once the
    accumulator is an error, the rest of the loop leaves it. *)
Lemma foldl_bind_Err {E A B} (f : A -> B -> result E A) (l : list B) (e : E) :
  foldl (fun acc x => a <-? acc ;; f a x) (Err e) l = Err e.
Proof. induction l; simpl; done. Qed.

(** Collect the results of a list of fallible computations. *)
Fixpoint all_ok {E A} (rs : list (result E A)) : result E (list A) :=
  match rs with
  | [] => Ok []
  | r :: rs' => a <-? r ;; l <-? all_ok rs' ;; Ok (a :: l)
  end.

(** ** Searching the suffixes of a list *)

(** [exists_suffix f l] tries [f] on [l] and on every proper suffix of [l],
    longest first: the backtracking search of a wildcard. *)
Fixpoint exists_suffix {A} (f : list A -> bool) (l : list A) : bool :=
  f l || match l with [] => false | _ :: l' => exists_suffix f l' end.

Lemma exists_suffix_spec {A} (f : list A -> bool) (l : list A) :
  exists_suffix f l = true <-> exists pre suf, l = pre ++ suf /\ f suf = true.
Proof.
  induction l as [|x l IH]; simpl; rewrite orb_true_iff.
  - split; [intros [H|H]; [exists [], []; done | done]|].
    intros (pre & suf & Hl & Hf). left. by destruct pre, suf.
  - rewrite IH. split.
    + intros [H | (pre & suf & -> & Hf)]; [exists [], (x :: l); done|].
      exists (x :: pre), suf. done.
    + intros ([|y pre] & suf & Hl & Hf); simpl in Hl; subst; [by left|].
      injection Hl as -> ->. right. eauto.
Qed.

Lemma exists_suffix_ext {A} (f g : list A -> bool) (l : list A) :
  (forall l', f l' = g l') -> exists_suffix f l = exists_suffix g l.
Proof. intros Hfg. induction l; simpl; rewrite Hfg; [done | by rewrite IHl]. Qed.

(** ** Lists *)

(** Dropping the last element of a non-empty list, as [path.dirname] does.  *)
Lemma length_removelast_lt {A} (x : A) (l : list A) :
  (length (removelast (x :: l)) < length (x :: l))%nat.
Proof.
  revert x. induction l as [|y l IH]; intros x; [simpl; lia|].
  cbn [removelast]. specialize (IH y). simpl in *. lia.
Qed.


(** ** Strings *)

(** [ends_with suf s]: [s] ends with [suf] (JavaScript's
    [String.prototype.endsWith]). *)
Definition ends_with (suf s : list ascii) : bool :=
  exists_suffix (fun t => bool_decide (t = suf)) s.

Lemma ends_with_spec suf s : ends_with suf s = true <-> exists pre, s = pre ++ suf.
Proof.
  unfold ends_with. rewrite exists_suffix_spec. split.
  - intros (pre & t & -> & Ht). apply bool_decide_eq_true in Ht. subst. eauto.
  - intros [pre ->]. exists pre, suf. split; [done|]. by apply bool_decide_eq_true.
Qed.

#[export] Hint Rewrite @exists_suffix_spec ends_with_spec : eslint_rw.

(** [simpl_bool] turns boolean conjunctions, disjunctions and decisions
    in the hypotheses and the goal into propositions. *)
Ltac simpl_bool :=
  repeat match goal with
  | H : (_ && _) = true |- _ => apply andb_true_iff in H as [? ?]
  | H : (_ || _) = true |- _ => apply orb_true_iff in H
  | H : bool_decide _ = true |- _ => apply bool_decide_eq_true in H
  | H : bool_decide _ = false |- _ => apply bool_decide_eq_false in H
  | |- (_ && _) = true => apply andb_true_iff; split
  | |- bool_decide _ = true => apply bool_decide_eq_true
  end.
