(* ===== verification/JsValue.v ===== *)
(** * JavaScript values and the configuration literal of src/.eslintrc.js

    [jvalue] is the part of JavaScript's values that an object literal of
    a configuration can denote: strings, numbers, booleans, [null], arrays
    and plain objects.  An object literal keeps its properties in source
    order; reading a property returns the value of its last occurrence, as
    a JavaScript object literal with a repeated key does.  A key
    ["__proto__"] is read as an ordinary property: in JavaScript it sets
    the literal's prototype instead (section "Not modelled" of
    Prelude.v).  The literal of
    [module.exports] in src/.eslintrc.js is written out part by part, each
    part a definition named after the source's property. *)

From S2P Require Import Prelude.

#[local] Set Warnings "-register-all".
Inductive jvalue : Type :=
| JNull
| JBool (b : bool)
| JNum (n : Z)
| JStr (s : string)
| JArr (xs : list jvalue)
| JObj (props : list (string * jvalue)).

(** Reading the property [k] of an object literal: [obj[k]], with the
    last occurrence of a repeated key taking effect; [None] is
    [undefined]. *)
Fixpoint jget (props : list (string * jvalue)) (k : string) : option jvalue :=
  match props with
  | [] => None
  | (k', v) :: props' =>
      match jget props' k with
      | Some w => Some w
      | None => if String.eqb k k' then Some v else None
      end
  end.

(** The property read of any value: only objects have properties here. *)
Definition jprop (v : jvalue) (k : string) : option jvalue :=
  match v with
  | JObj props => jget props k
  | _ => None
  end.

(** ** The literal of src/.eslintrc.js *)

(** Line 5: ["files": ["src/**/*.{js,vue,jsx}"]]. *)
Definition files_js : jvalue := JArr [JStr "src/**/*.{js,vue,jsx}"].

(** Line 8, commented out in the source: ["no-console": "warn"]. *)
Definition example_rule_js : string * jvalue := ("no-console", JStr "warn").

(** Lines 7-9: the [rules] object; its only entry is a comment. *)
Definition rules_js : jvalue := JObj [].

(** Lines 7-9 as they read with the comment marker of line 8 removed. *)
Definition rules_js_with_example : jvalue := JObj [example_rule_js].

(** Lines 4-10: the override block, given the values of [files]
    (line 5) and [rules] (lines 7-9). *)
Definition override_js (files rules : jvalue) : jvalue :=
  JObj [("files", files); ("rules", rules)].

(** Lines 3-11: the [overrides] array with its one block. *)
Definition overrides_js (files rules : jvalue) : jvalue := JArr [override_js files rules].

(** Lines 1-12: [module.exports]; line 2 is a comment standing for
    settings that are not in the file. *)
Definition eslintrc_js : jvalue := JObj [("overrides", overrides_js files_js rules_js)].

(** Lines 1-12 with line 5 reading ["files": fv] instead. *)
Definition eslintrc_js_files (fv : jvalue) : jvalue :=
  JObj [("overrides", overrides_js fv rules_js)].

(** The same export with line 8 enabled. *)
Definition eslintrc_js_with_example : jvalue :=
  JObj [("overrides", overrides_js files_js rules_js_with_example)].

(** ** Property reads *)

Lemma jget_None_iff props k : jget props k = None <-> k ∉ props.*1.
Proof.
  induction props as [|[k' v] props IH]; simpl.
  - split; [intros _; apply not_elem_of_nil | done].
  - rewrite not_elem_of_cons, <-IH.
    destruct (jget props k); [naive_solver|].
    destruct (String.eqb_spec k k'); naive_solver.
Qed.

(** Without repeated keys, reading an object literal is looking the key
    up in the map the literal lists. *)
Lemma jget_list_to_map (props : list (string * jvalue)) (k : string) :
  NoDup props.*1 -> jget props k = (list_to_map props : gmap string jvalue) !! k.
Proof.
  induction props as [|[k' v] props IH]; simpl; [done|].
  intros (Hk' & Hnd)%NoDup_cons. rewrite IH by done.
  destruct (String.eqb_spec k k') as [->|Hk].
  - rewrite lookup_insert_eq. rewrite <-IH by done.
    by apply jget_None_iff in Hk' as ->.
  - rewrite lookup_insert_ne by congruence. by destruct (_ !! k).
Qed.
