(* ===== verification/Glob.v ===== *)
(** * Glob patterns as the ESLint loader matches them (minimatch)

    The eslintrc loader tests a file against an override's [files] with
    [new Minimatch(pattern, { dot: true, matchBase: true })].  This file
    models that matcher: the [#] comment and [!] negation prefixes, brace
    expansion of comma groups, the split of each expanded pattern at runs of [/],
    the [**] globstar segment and segment patterns built from [*], [?] and
    literal characters, with the guards minimatch puts on empty, "." and
    ".." segments, and matchBase for one-segment patterns.  The executable
    matcher [path_match] is proved equal to the inductive relation
    [path_matches], and [seg_match] to [seg_matches]. *)

From S2P Require Import Prelude.

Module Glob.

(** ** Brace expansion *)

(** A pattern read for brace expansion: literal runs and comma groups. *)
Inductive part : Type :=
| PLit (s : list ascii)
| PAlt (alts : list (list ascii)).

Definition cons_lit (c : ascii) (ps : list part) : list part :=
  match ps with
  | PLit l :: ps' => PLit (c :: l) :: ps'
  | _ => PLit [c] :: ps
  end.

Definition app_lit (l : list ascii) (ps : list part) : list part :=
  foldr cons_lit ps l.

(** [brace_parts s] reads [s] outside braces; [brace_group s cur alts raw]
    reads inside a group opened by "{", where [cur] is the alternative being
    read (reversed), [alts] those already closed by "," (reversed) and
    [raw] what was read since "{" (reversed), given back as literal text
    when the group is not closed.  A group with no "," is literal text, as
    in the brace-expansion package ("a{b}c" stays as it is). *)
Fixpoint brace_parts (s : list ascii) : list part :=
  match s with
  | [] => []
  | c :: s' =>
      if Ascii.eqb c "{"%char then brace_group s' [] [] [] else cons_lit c (brace_parts s')
  end
with brace_group (s : list ascii) (cur : list ascii) (alts : list (list ascii))
    (raw : list ascii) : list part :=
  match s with
  | [] => [PLit ("{"%char :: rev raw)]
  | c :: s' =>
      if Ascii.eqb c "}"%char then
        match alts with
        | [] => app_lit ("{"%char :: rev raw ++ ["}"%char]) (brace_parts s')
        | _ => PAlt (rev (rev cur :: alts)) :: brace_parts s'
        end
      else if Ascii.eqb c ","%char then brace_group s' [] (rev cur :: alts) (c :: raw)
      else brace_group s' (c :: cur) alts (c :: raw)
  end.

(** Every choice of one alternative per group, in order. *)
Definition expand_parts (ps : list part) : list (list ascii) :=
  foldr (fun p acc =>
           match p with
           | PLit l => map (app l) acc
           | PAlt alts => alts ≫= (fun a => map (app a) acc)
           end) [[]] ps.

(** minimatch's [braceExpand]. *)
Definition brace_expand (s : list ascii) : list (list ascii) :=
  expand_parts (brace_parts s).

(** ** Segment patterns *)

(** A character of a segment pattern: [*], [?] or a literal. *)
Inductive tok : Type :=
| TStar
| TAny
| TChar (c : ascii).

#[export] Instance tok_eq_dec : EqDecision tok.
Proof. solve_decision. Defined.

(** A segment of a pattern: the globstar [**] or a segment pattern. *)
Inductive segpat : Type :=
| GlobStar
| SegPat (t : list tok).

Definition tok_of_char (c : ascii) : tok :=
  if Ascii.eqb c "*"%char then TStar else if Ascii.eqb c "?"%char then TAny else TChar c.

(** minimatch's [parse] of one segment: ["**"] alone is the globstar. *)
Definition compile_seg (s : list ascii) : segpat :=
  if bool_decide (s = ["*"; "*"]%char) then GlobStar else SegPat (map tok_of_char s).

(** JavaScript's [s.split(/\/+/)] (minimatch's [slashSplit]): a run of
    "/" is one separator, so only a leading or a trailing run gives an
    empty segment. *)
Fixpoint split_slash (s : list ascii) : list (list ascii) :=
  match s with
  | [] => [[]]
  | c :: s' =>
      let r := split_slash s' in
      if Ascii.eqb c "/"%char then
        match s' with
        | c' :: _ => if Ascii.eqb c' "/"%char then r else [] :: r
        | [] => [] :: r
        end
      else match r with
           | seg :: rest => (c :: seg) :: rest
           | [] => [[c]]
           end
  end.

Definition has_magic (t : list tok) : bool :=
  existsb (fun k => match k with TChar _ => false | _ => true end) t.

Definition is_dot_seg (s : list ascii) : bool :=
  bool_decide (s = ["."]%char) || bool_decide (s = ["."; "."]%char).

Definition starts_with_dot_lit (t : list tok) : bool :=
  match t with
  | TChar c :: _ => Ascii.eqb c "."%char
  | _ => false
  end.

(** The regular expression minimatch builds for a segment pattern: [*]
    matches any run of characters, [?] one character, a literal itself. *)
Fixpoint seg_match (t : list tok) : list ascii -> bool :=
  match t with
  | [] => fun s => match s with [] => true | _ => false end
  | TStar :: t' => exists_suffix (seg_match t')
  | TAny :: t' => fun s => match s with [] => false | _ :: s' => seg_match t' s' end
  | TChar c :: t' => fun s =>
      match s with
      | [] => false
      | c' :: s' => Ascii.eqb c c' && seg_match t' s'
      end
  end.

(** The guards minimatch adds to a segment pattern with a wildcard under
    [dot: true]: the segment is not empty ([(?=.)]) and, unless the
    pattern starts with a literal ".", it is not "." or "..". *)
Definition seg_guard (t : list tok) (s : list ascii) : bool :=
  negb (has_magic t) ||
  (negb (bool_decide (s = [])) && (starts_with_dot_lit t || negb (is_dot_seg s))).

Definition seg_ok (t : list tok) (s : list ascii) : bool :=
  seg_match t s && seg_guard t s.

(** ** Path patterns (minimatch 3's [matchOne]) *)

Definition dot_seg (s : string) : bool := is_dot_seg (list_ascii_of_string s).

(** The loop of a globstar followed by more pattern: try the rest at the
    current segment, else swallow the segment unless it is "." or "..". *)
Fixpoint swallow (g : list string -> bool) (f : list string) : bool :=
  match f with
  | [] => false
  | s :: f' => g f || (negb (dot_seg s) && swallow g f')
  end.

(** [path_match p f]: the file [f], split at "/", matches the pattern [p].
    The pattern running out is a match when the file has run out too or
    only an empty last segment (a trailing "/") is left; the file running
    out first is no match, even before a globstar ("a/**" does not match
    "a" in minimatch 3).  A globstar at the end takes every remaining
    segment but "." and "..". *)
Fixpoint path_match (p : list segpat) : list string -> bool :=
  match p with
  | [] => fun f => match f with [] => true | [s] => String.eqb s "" | _ => false end
  | GlobStar :: p' => fun f =>
      match f with
      | [] => false
      | _ =>
          match p' with
          | [] => forallb (fun s => negb (dot_seg s)) f
          | _ => swallow (path_match p') f
          end
      end
  | SegPat t :: p' => fun f =>
      match f with
      | [] => false
      | s :: f' => seg_ok t (list_ascii_of_string s) && path_match p' f'
      end
  end.

(** ** Matching as inductive relations *)

(** The language of a segment pattern. *)
Inductive seg_matches : list tok -> list ascii -> Prop :=
| SM_nil : seg_matches [] []
| SM_char c t s : seg_matches t s -> seg_matches (TChar c :: t) (c :: s)
| SM_any c t s : seg_matches t s -> seg_matches (TAny :: t) (c :: s)
| SM_star_stop t s : seg_matches t s -> seg_matches (TStar :: t) s
| SM_star_take c t s : seg_matches (TStar :: t) s -> seg_matches (TStar :: t) (c :: s).

(** The files a path pattern matches, rule by rule of [matchOne]. *)
Inductive path_matches : list segpat -> list string -> Prop :=
| PM_end : path_matches [] []
| PM_trailing : path_matches [] [""]
| PM_seg t p s f :
    seg_matches t (list_ascii_of_string s) ->
    seg_guard t (list_ascii_of_string s) = true ->
    path_matches p f -> path_matches (SegPat t :: p) (s :: f)
| PM_star_last f :
    f <> [] -> Forall (fun s => dot_seg s = false) f -> path_matches [GlobStar] f
| PM_star_stop p f :
    p <> [] -> f <> [] -> path_matches p f -> path_matches (GlobStar :: p) f
| PM_star_take p s f :
    p <> [] -> dot_seg s = false ->
    path_matches (GlobStar :: p) f -> path_matches (GlobStar :: p) (s :: f).

(** ** The matcher *)

(** minimatch's [parseNegate]: each leading "!" flips the result. *)
Fixpoint parse_negate (s : list ascii) : bool * list ascii :=
  match s with
  | c :: s' => if Ascii.eqb c "!"%char then let (n, r) := parse_negate s' in (negb n, r) else (false, s)
  | [] => (false, [])
  end.

(** The last non-empty segment of the file, or its first when all are
    empty: minimatch's [filename] for matchBase. *)
Fixpoint base_name (f : list string) : string :=
  match f with
  | [] => ""
  | [s] => s
  | s :: f' => let b := base_name f' in if String.eqb b "" then s else b
  end.

(** The expanded and compiled pattern set: minimatch's [set]. *)
Definition compile (body : list ascii) : list (list segpat) :=
  map (fun e => map compile_seg (split_slash e)) (brace_expand body).

(** [new Minimatch(pattern, {dot: true, matchBase: true}).match(f)] for
    the file [f] split at runs of "/": a pattern starting with "#" is a comment
    that matches nothing, the empty pattern matches only the empty path,
    and a one-segment pattern is matched against the base name. *)
Definition minimatch (pattern : string) (f : list string) : bool :=
  let s := list_ascii_of_string pattern in
  match s with
  | [] => bool_decide (f = [""])
  | c :: _ =>
      if Ascii.eqb c "#"%char then false
      else
        let (neg, body) := parse_negate s in
        let hit := existsb (fun pat => path_match pat
                              (if List.length pat =? 1 then [base_name f] else f))
                           (compile body) in
        if hit then negb neg else neg
  end.

(** ** The matchers implement the relations *)

#[local] Hint Constructors seg_matches path_matches : eslint.

Lemma seg_matches_star t s :
  seg_matches (TStar :: t) s <-> exists pre suf, s = pre ++ suf /\ seg_matches t suf.
Proof.
  split.
  - induction s as [|c s IH]; intros H; inversion H as [| | |? ? Hm|? ? ? Hm]; subst.
    + by exists [], [].
    + by exists [], (c :: s).
    + destruct (IH Hm) as (pre & suf & -> & Hm'). by exists (c :: pre), suf.
  - intros (pre & suf & -> & Hm). induction pre; simpl; eauto with eslint.
Qed.

(** The executable segment matcher decides the language of its pattern. *)
Lemma seg_match_spec t s : seg_match t s = true <-> seg_matches t s.
Proof.
  revert s. induction t as [|[| |c] t IH]; intros s; simpl.
  - destruct s; split; intros H; inversion H; eauto with eslint.
  - rewrite exists_suffix_spec, seg_matches_star.
    setoid_rewrite IH. done.
  - destruct s as [|c s]; [split; intros H; inversion H|].
    rewrite IH. split; intros H; [eauto with eslint | by inversion H].
  - destruct s as [|c' s]; [split; intros H; inversion H|].
    rewrite andb_true_iff, IH. split.
    + intros [Hc Hm]. apply Ascii.eqb_eq in Hc. subst. eauto with eslint.
    + intros H; inversion H; subst. by rewrite Ascii.eqb_refl.
Qed.

Lemma swallow_spec (g : list string -> bool) (R : list string -> Prop) p f :
  (forall f, g f = true <-> R f) ->
  (forall f, R f <-> path_matches p f) -> p <> [] ->
  swallow g f = true <-> path_matches (GlobStar :: p) f.
Proof.
  intros Hg HR Hp. induction f as [|s f IH]; simpl.
  - split; [done|]. intros H; inversion H; congruence.
  - rewrite orb_true_iff, andb_true_iff, negb_true_iff, IH, Hg, HR. split.
    + intros [H | [Hs H]]; [apply PM_star_stop | apply PM_star_take]; done.
    + intros H; inversion H; subst; [done | by left | by right].
Qed.

Lemma forallb_not_dot f :
  forallb (fun s => negb (dot_seg s)) f = true <-> Forall (fun s => dot_seg s = false) f.
Proof.
  rewrite forallb_forall, List.Forall_forall.
  split; intros H x Hx; apply negb_true_iff, H, Hx.
Qed.

(** The executable path matcher decides [path_matches]: minimatch's
    [matchOne] on a file split at "/" is the relation's rules. *)
Lemma path_match_spec p f : path_match p f = true <-> path_matches p f.
Proof.
  revert f. induction p as [|[|t] p IH]; intros f; simpl.
  - destruct f as [|s [|s' f]].
    + split; eauto with eslint.
    + rewrite String.eqb_eq. split; [intros ->; eauto with eslint | intros H; by inversion H].
    + split; [done | intros H; inversion H].
  - destruct f as [|s f]; [split; [done | intros H; inversion H; congruence]|].
    destruct p as [|q p].
    + rewrite forallb_not_dot. split; [intros; by constructor|].
      intros H; by inversion H.
    + apply (swallow_spec _ (path_matches (q :: p))); [done | done | done].
  - destruct f as [|s f]; [split; [done | intros H; inversion H]|].
    unfold seg_ok. rewrite !andb_true_iff, seg_match_spec, IH. split.
    + intros [[Hm Hg] Hp]. by constructor.
    + intros H; inversion H; subst. done.
Qed.

(** ** Lemmas on particular patterns *)

Lemma seg_match_lit (l s : list ascii) : seg_match (map TChar l) s = bool_decide (s = l).
Proof.
  revert s. induction l as [|c l IH]; intros [|c' s]; simpl; try done.
  rewrite IH. destruct (Ascii.eqb_spec c c') as [->|Hc].
  - apply bool_decide_ext. naive_solver.
  - symmetry. apply bool_decide_eq_false. congruence.
Qed.

Lemma has_magic_lit (l : list ascii) : has_magic (map TChar l) = false.
Proof. induction l; simpl; done. Qed.

Lemma seg_ok_lit (l s : list ascii) : seg_ok (map TChar l) s = bool_decide (s = l).
Proof. unfold seg_ok, seg_guard. by rewrite seg_match_lit, has_magic_lit, andb_true_r. Qed.

Lemma is_dot_seg_length (s : list ascii) : is_dot_seg s = true -> (length s <= 2)%nat.
Proof. unfold is_dot_seg. intros H. simpl_bool. destruct H; simpl_bool; subst; simpl; lia. Qed.

(** A segment pattern "*" followed by at least three literal characters
    matches exactly the segments that end with them. *)
Lemma seg_ok_star_suffix (suf s : list ascii) :
  (3 <= length suf)%nat ->
  seg_ok (TStar :: map TChar suf) s = true <-> exists pre, s = pre ++ suf.
Proof.
  intros Hlen. unfold seg_ok, seg_guard. rewrite andb_true_iff, seg_match_spec, seg_matches_star.
  setoid_rewrite <-seg_match_spec. setoid_rewrite seg_match_lit. simpl. split.
  - intros [(pre & t & -> & Ht) _]. apply bool_decide_eq_true in Ht. subst. eauto.
  - intros [pre ->]. split; [exists pre, suf; split; [done|by apply bool_decide_eq_true]|].
    rewrite andb_true_iff, !negb_true_iff. split.
    + apply bool_decide_eq_false. intros Hn. apply (f_equal length) in Hn.
      rewrite length_app in Hn. simpl in Hn. lia.
    + destruct (is_dot_seg (pre ++ suf)) eqn:Hd; [|done].
      apply is_dot_seg_length in Hd. rewrite length_app in Hd. lia.
Qed.

(** A globstar followed by more pattern takes any run of segments other
    than "." and "..", leaving a non-empty rest to that pattern. *)
Lemma swallow_iff (g : list string -> bool) (f : list string) :
  swallow g f = true <->
  exists dirs rest, f = dirs ++ rest /\ rest <> [] /\
                    Forall (fun s => dot_seg s = false) dirs /\ g rest = true.
Proof.
  induction f as [|s f IH]; simpl.
  - split; [done|]. intros (dirs & rest & Hf & Hr & _). symmetry in Hf.
    apply app_eq_nil in Hf as [_ ->]. done.
  - rewrite orb_true_iff, andb_true_iff, negb_true_iff, IH. split.
    + intros [Hg | [Hs (dirs & rest & -> & Hr & Hd & Hg)]].
      * exists [], (s :: f). done.
      * exists (s :: dirs), rest. split; [done|]. split; [done|]. split; [by constructor|done].
    + intros ([|d dirs] & rest & Hf & Hr & Hd & Hg); simpl in Hf.
      * subst. by left.
      * injection Hf as -> ->. inversion Hd as [|? ? Hs Hd2]; subst. right. split; [done|]. by exists dirs, rest.
Qed.

Lemma path_match_seg_cons (t : list tok) (p : list segpat) (s : string) (f : list string) :
  path_match (SegPat t :: p) (s :: f) = seg_ok t (list_ascii_of_string s) && path_match p f.
Proof. reflexivity. Qed.

Lemma path_match_globstar (p : list segpat) (f : list string) :
  p <> [] -> path_match (GlobStar :: p) f = swallow (path_match p) f.
Proof. intros Hp. destruct p; [done|]. by destruct f. Qed.

(** A last segment pattern matches a last segment, possibly followed by
    an empty segment (a trailing "/"). *)
Lemma path_match_last (t : list tok) (f : list string) :
  path_match [SegPat t] f = true <->
  exists name, (f = [name] \/ f = [name; ""]) /\ seg_ok t (list_ascii_of_string name) = true.
Proof.
  destruct f as [|name [|e [|x f]]]; simpl;
    rewrite ?andb_true_iff, ?andb_true_r, ?String.eqb_eq; split; try naive_solver.
Qed.

Lemma brace_parts_no_brace (s : list ascii) :
  "{"%char ∉ s -> brace_parts s = match s with [] => [] | _ => [PLit s] end.
Proof.
  induction s as [|c s IH]; intros Hs; [done|]. apply not_elem_of_cons in Hs as [Hc Hs].
  simpl. destruct (Ascii.eqb_spec c "{"%char); [congruence|].
  rewrite IH by done. by destruct s.
Qed.

(** A pattern without "{" is its own and only brace expansion. *)
Theorem brace_expand_no_brace (s : list ascii) :
  "{"%char ∉ s -> brace_expand s = [s].
Proof.
  intros Hs. unfold brace_expand. rewrite brace_parts_no_brace by done.
  destruct s; simpl; by rewrite ?app_nil_r.
Qed.

(** A leading "!" negates a pattern that does not itself start with
    "!" or "#". *)
Theorem minimatch_negation (c : ascii) (rest : list ascii) (f : list string) :
  Ascii.eqb c "!"%char = false -> Ascii.eqb c "#"%char = false ->
  minimatch (string_of_list_ascii ("!"%char :: c :: rest)) f =
  negb (minimatch (string_of_list_ascii (c :: rest)) f).
Proof.
  intros Hb Hh. unfold minimatch. rewrite !list_ascii_of_string_of_list_ascii.
  cbn [parse_negate Ascii.eqb Bool.eqb]. rewrite Hb, Hh. simpl.
  by destruct (existsb _ _).
Qed.



End Glob.
