(* ===== verification/Rules.v ===== *)
(** * Rule settings and their merge (eslintrc's config-array.js)

    A configuration's [rules] object maps a rule name to a setting: a
    severity (["off"], ["warn"], ["error"], [0], [1], [2]) or an array of a
    severity and options.  When several configuration elements apply to a
    file, eslintrc's [createConfig] starts from an empty object [{}] and
    calls [mergeRuleConfigs] on the elements from the highest precedence
    (the last) to the lowest: the first setting found for a rule is
    adopted in array form, and a later one only completes a bare severity
    with its options.

    The target [{}] is an ordinary object: [target[key]] finds the
    functions of [Object.prototype] under their names ([object_prototype],
    [target_get]).  Such a name is never adopted, and when its function
    has length 1 and the source's setting is an array with options, the
    merge calls [push] on the function and throws ([PushNotAFunction]);
    [mergeRuleConfigs] and [extract_rules] return that error.  Likewise
    [getRuleSeverity] returns what the frozen [RULE_SEVERITY] inherits
    under ["constructor"] and ["__proto__"] ([SevInherited]).

    [spec_rule] states the merge's outcome directly; [extract_rules] is
    proved to refine it, errors included. *)

From S2P Require Import Prelude JsValue.

Module Rules.

(** ** Properties every object inherits *)

(** The properties an object literal inherits from [Object.prototype],
    each a function, with the function's [length] (ECMA-262 sections
    20.1.3 and B.2.2.2-B.2.2.5).  [__proto__], an accessor that yields
    the prototype, is apart. *)
Definition object_prototype : list (string * nat) :=
  [("constructor", 1%nat); ("__defineGetter__", 2%nat); ("__defineSetter__", 2%nat);
   ("hasOwnProperty", 1%nat); ("__lookupGetter__", 1%nat); ("__lookupSetter__", 1%nat);
   ("isPrototypeOf", 1%nat); ("propertyIsEnumerable", 1%nat); ("toString", 0%nat);
   ("valueOf", 0%nat); ("toLocaleString", 0%nat)].

(** The [length] of the function an object without own property [k]
    finds at [k], if any. *)
Definition inherited_length (k : string) : option nat :=
  snd <$> List.find (fun p => String.eqb p.1 k) object_prototype.

(** A name under which an object literal finds nothing it did not set. *)
Definition plain_key (k : string) : bool :=
  negb (String.eqb k "__proto__") && bool_decide (inherited_length k = None).

(** ** Severities (ConfigOps.getRuleSeverity) *)

Definition ascii_lower (c : ascii) : ascii :=
  let n := nat_of_ascii c in
  if (65 <=? n)%nat && (n <=? 90)%nat then ascii_of_nat (n + 32) else c.

(** [String.prototype.toLowerCase] on ASCII text. *)
Definition to_lower (s : string) : string :=
  string_of_list_ascii (map ascii_lower (list_ascii_of_string s)).

(** What [getRuleSeverity] returns: a number, or the value the frozen
    object [RULE_SEVERITY] inherits under a name ([Object] under
    ["constructor"], [Object.prototype] under ["__proto__"]). *)
Inductive severity :=
| SevNum (n : Z)
| SevInherited (name : string).

(** [RULE_SEVERITY[name] || 0] with [RULE_SEVERITY] the frozen object
    [{off: 0, warn: 1, error: 2}]: an own entry, else an inherited
    value (truthy, so returned), else [undefined || 0]. *)
Definition rule_severity_lookup (l : string) : severity :=
  if String.eqb l "off" then SevNum 0
  else if String.eqb l "warn" then SevNum 1
  else if String.eqb l "error" then SevNum 2
  else if negb (plain_key l) then SevInherited l
  else SevNum 0.

(** The severity of a setting: the number [0], [1] or [2], or the
    lower-cased name looked up in [RULE_SEVERITY], and [0] for anything
    else. *)
Definition getRuleSeverity (v : jvalue) : severity :=
  let sv := match v with
            | JArr (x :: _) => Some x
            | JArr [] => None
            | _ => Some v
            end in
  match sv with
  | Some (JNum n) => if (n =? 0)%Z || (n =? 1)%Z || (n =? 2)%Z then SevNum n else SevNum 0
  | Some (JStr s) => rule_severity_lookup (to_lower s)
  | _ => SevNum 0
  end.

(** ** The merge *)

(** A rule setting in the array form the merge produces. *)
Definition rule_conf : Type := list jvalue.

(** The [TypeError] of [targetDef.push(...)] when [targetDef] is a
    function inherited from [Object.prototype]. *)
Inductive merge_error := PushNotAFunction.

(** [Array.isArray(v) ? [...v] : [v]]: the adopted copy of a setting. *)
Definition to_rule_conf (v : jvalue) : rule_conf :=
  match v with
  | JArr xs => xs
  | _ => [v]
  end.

Definition has_options (v : jvalue) : bool :=
  match v with
  | JArr xs => (2 <=? length xs)%nat
  | _ => false
  end.

(** [target[key]] for a target whose own properties are the settings
    adopted so far: an own setting, or a function of [Object.prototype]
    known by its [length]. *)
Inductive target_def :=
| OwnDef (td : rule_conf)
| InheritedFn (len : nat).

Definition target_get (target : gmap string rule_conf) (k : string) : option target_def :=
  match target !! k with
  | Some td => Some (OwnDef td)
  | None => InheritedFn <$> inherited_length k
  end.

Definition def_length (d : target_def) : nat :=
  match d with OwnDef td => length td | InheritedFn n => n end.

(** One key of [mergeRuleConfigs]: adopt the source when [target[key]]
    is [undefined]; when [targetDef.length === 1] and the source is an
    array of two or more elements, push the source's options onto the
    target, which throws when the target is an inherited function; else
    leave the target. *)
Definition merge_key (target : gmap string rule_conf) (k : string) (sv : jvalue)
  : result merge_error (gmap string rule_conf) :=
  match target_get target k with
  | None => Ok (<[k := to_rule_conf sv]> target)
  | Some d =>
      if (def_length d =? 1)%nat && has_options sv then
        match d with
        | OwnDef td => Ok (<[k := td ++ tail (to_rule_conf sv)]> target)
        | InheritedFn _ => Err PushNotAFunction
        end
      else Ok target
  end.

(** The loop of [mergeRuleConfigs] over [Object.keys(source)], which
    skips ["__proto__"]. *)
Definition merge_step (acc : result merge_error (gmap string rule_conf)) (kv : string * jvalue)
  : result merge_error (gmap string rule_conf) :=
  t <-? acc ;; if String.eqb kv.1 "__proto__" then Ok t else merge_key t kv.1 kv.2.

(** [mergeRuleConfigs(target, source)]: the keys in the order of
    [map_to_list], which stands for [Object.keys]; the outcome does not
    depend on it. *)
Definition mergeRuleConfigs (target : gmap string rule_conf) (source : gmap string jvalue)
  : result merge_error (gmap string rule_conf) :=
  foldl merge_step (Ok target) (map_to_list source).

(** The rules of [createConfig]: [srcs] are the [rules] of the elements
    that apply, in array order (lowest precedence first); they are merged
    into [{}] from the last to the first. *)
Definition extract_rules (srcs : list (gmap string jvalue))
  : result merge_error (gmap string rule_conf) :=
  foldl (fun acc s => t <-? acc ;; mergeRuleConfigs t s) (Ok ∅) (rev srcs).

(** The setting of rule [k] in a merge's outcome. *)
Definition rule_of (r : result merge_error (gmap string rule_conf)) (k : string)
  : result merge_error (option rule_conf) :=
  m <-? r ;; Ok (m !! k).

(** ** The specification of the effective setting *)

(** The merge of one setting into a target without inherited names. *)
Definition merge_entry (t : option rule_conf) (sv : jvalue) : rule_conf :=
  match t with
  | None => to_rule_conf sv
  | Some td => if (length td =? 1)%nat && has_options sv then td ++ tail (to_rule_conf sv) else td
  end.

Definition merge_opt (t : option rule_conf) (s : option jvalue) : option rule_conf :=
  match s with
  | None => t
  | Some sv => Some (merge_entry t sv)
  end.

(** A source throws when it sets a name whose inherited function has
    length 1 to an array with options. *)
Definition throws_at (k : string) (sv : jvalue) : bool :=
  bool_decide (inherited_length k = Some 1%nat) && has_options sv.

Definition merge_throws (source : gmap string jvalue) : bool :=
  existsb (fun kv => throws_at kv.1 kv.2) (map_to_list source).

(** [settings] lists the settings of one rule from the highest precedence
    down: the first is adopted, and when it is a bare severity the
    options of the first array with options below it are appended. *)
Definition spec_setting (settings : list jvalue) : option rule_conf :=
  match settings with
  | [] => None
  | v :: rest =>
      let base := to_rule_conf v in
      Some (if (length base =? 1)%nat then
              match List.find has_options rest with
              | Some (JArr xs) => base ++ tail xs
              | _ => base
              end
            else base)
  end.

(** A plain name gets [spec_setting] of its settings; a name the target
    inherits something under is never adopted. *)
Definition spec_rule (srcs : list (gmap string jvalue)) (k : string) : option rule_conf :=
  if plain_key k then spec_setting (omap (fun m => m !! k) (rev srcs)) else None.

(** What one key of the merge does to the target's own setting. *)
Definition key_result (k : string) (o : option rule_conf) (sv : jvalue)
  : result merge_error (option rule_conf) :=
  match o, inherited_length k with
  | Some td, _ => Ok (Some (merge_entry (Some td) sv))
  | None, None => Ok (Some (to_rule_conf sv))
  | None, Some len => if (len =? 1)%nat && has_options sv then Err PushNotAFunction else Ok None
  end.

(** A target whose own properties all have plain names. *)
Definition plain_target (t : gmap string rule_conf) : Prop :=
  forall k, is_Some (t !! k) -> plain_key k = true.

(** ** Lemmas *)

(** *** Names *)

Lemma ascii_lower_idem (c : ascii) : ascii_lower (ascii_lower c) = ascii_lower c.
Proof. destruct c as [[] [] [] [] [] [] [] []]; reflexivity. Qed.

Lemma to_lower_idem (s : string) : to_lower (to_lower s) = to_lower s.
Proof.
  unfold to_lower. rewrite list_ascii_of_string_of_list_ascii, map_map.
  f_equal. apply map_ext, ascii_lower_idem.
Qed.

(** Of the names an object inherits something under, only two are
    lower case. *)
Lemma lower_inherited (l : string) :
  to_lower l = l -> plain_key l = false -> l = "constructor" \/ l = "__proto__".
Proof.
  intros Hl Hp. unfold plain_key, inherited_length in Hp. cbn [List.find object_prototype fst] in Hp.
  repeat match type of Hp with context [String.eqb ?name l] =>
    destruct (String.eqb_spec name l) as [<-|];
      [first [by left | vm_compute in Hl; discriminate] | cbn [fmap option_fmap option_map] in Hp]
  end.
  apply andb_false_iff in Hp as [Hp|Hp]; [|done].
  apply negb_false_iff, String.eqb_eq in Hp. by right.
Qed.

Lemma plain_key_inherited (k : string) : plain_key k = true -> inherited_length k = None.
Proof. unfold plain_key. intros Hk. simpl_bool. done. Qed.

(** *** One key *)

Lemma merge_key_lookup t k sv :
  match merge_key t k sv, key_result k (t !! k) sv with
  | Ok t', Ok r => t' !! k = r /\ forall j, j <> k -> t' !! j = t !! j
  | Err e, Err e' => e = e'
  | _, _ => False
  end.
Proof.
  unfold merge_key, key_result, target_get, merge_entry.
  destruct (t !! k) as [td|] eqn:Ht; [|destruct (inherited_length k) as [len|]]; cbn [fmap option_fmap option_map def_length];
    repeat case_match; simplify_eq; [..|by destruct e|];
    rewrite ?lookup_insert_eq; (split; [done|]);
    intros j Hj; by rewrite ?lookup_insert_ne by congruence.
Qed.

Lemma key_result_plain k o sv :
  inherited_length k = None -> key_result k o sv = Ok (Some (merge_entry o sv)).
Proof. intros Hk. unfold key_result. by destruct o; rewrite ?Hk. Qed.

(** On a target without inherited names, a key fails exactly when it
    throws. *)
Lemma key_result_Err t j sv e :
  plain_target t -> key_result j (t !! j) sv = Err e <-> throws_at j sv = true.
Proof.
  intros Ht. unfold key_result, throws_at. destruct e.
  destruct (t !! j) as [td|] eqn:Hj.
  - rewrite (plain_key_inherited j) by (apply Ht; by eexists). simpl_bool. naive_solver.
  - destruct (inherited_length j) as [len|]; [|naive_solver].
    destruct (len =? 1)%nat eqn:Hl; [apply Nat.eqb_eq in Hl as ->|apply Nat.eqb_neq in Hl];
      destruct (has_options sv); rewrite ?bool_decide_eq_true_2, ?bool_decide_eq_false_2 by congruence;
      naive_solver.
Qed.

(** *** The loop over the keys *)

Lemma fold_merge_step_Err l e : foldl merge_step (Err e) l = Err e.
Proof. induction l; simpl; done. Qed.

Lemma fold_merge_Ok t l t' :
  NoDup l.*1 -> foldl merge_step (Ok t) l = Ok t' ->
  forall j, match (if String.eqb j "__proto__" then None else (list_to_map l : gmap string jvalue) !! j) with
            | None => t' !! j = t !! j
            | Some sv => key_result j (t !! j) sv = Ok (t' !! j)
            end.
Proof.
  revert t. induction l as [|[k sv] l IH]; intros t Hnd Hf j; cbn [foldl] in *.
  { injection Hf as ->. rewrite list_to_map_nil, lookup_empty. by destruct (String.eqb j _). }
  rewrite list_to_map_cons.
  inversion Hnd as [|? ? Hk Hnd']; subst. unfold merge_step at 2 in Hf; cbn [result_bind fst snd] in Hf.
  destruct (String.eqb k "__proto__") eqn:Hkp.
  - apply String.eqb_eq in Hkp as ->. specialize (IH t Hnd' Hf j).
    destruct (String.eqb j "__proto__") eqn:Hj; rewrite ?Hj in IH; [done|]. apply String.eqb_neq in Hj.
    by rewrite lookup_insert_ne by congruence.
  - apply String.eqb_neq in Hkp. pose proof (merge_key_lookup t k sv) as Hm.
    destruct (merge_key t k sv) as [t1|e]; [|by rewrite fold_merge_step_Err in Hf].
    destruct (key_result k (t !! k) sv) as [r|] eqn:Hr; [destruct Hm as [Hk1 Hj1]|done].
    specialize (IH t1 Hnd' Hf j). destruct (String.eqb j "__proto__") eqn:Hj; rewrite ?Hj in IH.
    + apply String.eqb_eq in Hj. rewrite IH. apply Hj1. congruence.
    + destruct (decide (j = k)) as [->|Hjk].
      * rewrite lookup_insert_eq. rewrite not_elem_of_list_to_map_1 in IH by done.
        by rewrite Hr, IH, Hk1.
      * rewrite lookup_insert_ne by congruence. by rewrite <-(Hj1 j Hjk).
Qed.

Lemma fold_merge_Err t l e :
  NoDup l.*1 ->
  foldl merge_step (Ok t) l = Err e <->
  exists j sv, String.eqb j "__proto__" = false /\ (j, sv) ∈ l /\ key_result j (t !! j) sv = Err e.
Proof.
  revert t. induction l as [|[k sv] l IH]; intros t Hnd; cbn [foldl].
  { split; [done|]. intros (? & ? & _ & Hin & _). by apply elem_of_nil in Hin. }
  inversion Hnd as [|? ? Hk Hnd']; subst. unfold merge_step at 2; cbn [result_bind fst snd].
  destruct (String.eqb k "__proto__") eqn:Hkp.
  - rewrite IH by done. setoid_rewrite elem_of_cons. split; [naive_solver|].
    intros (j & sv' & Hj & [[= -> ->]|Hin] & He); [congruence|eauto].
  - pose proof (merge_key_lookup t k sv) as Hm.
    destruct (merge_key t k sv) as [t1|e1], (key_result k (t !! k) sv) as [r|e2] eqn:Hr; try done.
    + destruct Hm as [_ Hj1]. rewrite IH by done. setoid_rewrite elem_of_cons.
      split; intros (j & sv' & Hj & Hin & He).
      * exists j, sv'. assert (j <> k) by (intros ->; apply Hk, list_elem_of_fmap; by exists (k, sv')).
        rewrite Hj1 in He by done. eauto.
      * destruct Hin as [[= -> ->]|Hin]; [congruence|].
        assert (j <> k) by (intros ->; apply Hk, list_elem_of_fmap; by exists (k, sv')).
        exists j, sv'. by rewrite Hj1.
    + rewrite fold_merge_step_Err. destruct e, e1.
      split; [intros _; exists k, sv; rewrite elem_of_cons; subst; eauto | done].
Qed.

(** *** [mergeRuleConfigs] *)

Lemma mergeRuleConfigs_Err t s e :
  plain_target t -> mergeRuleConfigs t s = Err e <-> merge_throws s = true.
Proof.
  intros Ht. unfold mergeRuleConfigs, merge_throws.
  rewrite fold_merge_Err by apply NoDup_fst_map_to_list. rewrite existsb_exists.
  setoid_rewrite key_result_Err; [|done]. setoid_rewrite <-list_elem_of_In. split.
  - intros (j & sv & _ & Hin & Hth). by exists (j, sv).
  - intros ([j sv] & Hin & Hth). exists j, sv. split; [|done].
    destruct (String.eqb_spec j "__proto__") as [->|]; [|done]. by vm_compute in Hth.
Qed.

Lemma mergeRuleConfigs_lookup t s t' k :
  plain_target t -> mergeRuleConfigs t s = Ok t' ->
  t' !! k = merge_opt (t !! k) (if plain_key k then s !! k else None).
Proof.
  intros Ht Hm. pose proof (fold_merge_Ok _ _ _ (NoDup_fst_map_to_list s) Hm k) as Hk.
  rewrite list_to_map_to_list in Hk. unfold plain_key.
  destruct (String.eqb k "__proto__"); cbn [negb andb]; [done|].
  destruct (s !! k) as [sv|]; [|by destruct bool_decide].
  destruct (inherited_length k) as [len|] eqn:Hi.
  - rewrite bool_decide_eq_false_2 by done. cbn [merge_opt].
    destruct (t !! k) as [td|] eqn:Htk.
    { exfalso. assert (Hp : plain_key k = true) by (apply Ht; by eexists).
      apply plain_key_inherited in Hp. congruence. }
    unfold key_result in Hk. rewrite Hi in Hk. by case_match; simplify_eq.
  - rewrite bool_decide_eq_true_2 by done. rewrite key_result_plain in Hk by done. by injection Hk.
Qed.

Lemma mergeRuleConfigs_plain t s t' :
  plain_target t -> mergeRuleConfigs t s = Ok t' -> plain_target t'.
Proof.
  intros Ht Hm k Hk. destruct (plain_key k) eqn:Hp; [done|].
  rewrite (mergeRuleConfigs_lookup t s t' k Ht Hm), Hp in Hk. cbn [merge_opt] in Hk. rewrite <-Hp. by apply Ht.
Qed.

Lemma plain_target_empty : plain_target ∅.
Proof. intros k [? Hk]. by rewrite lookup_empty in Hk. Qed.

(** A source none of whose settings has options never throws. *)
Lemma merge_throws_false (m : gmap string jvalue) :
  map_Forall (fun _ v => has_options v = false) m -> merge_throws m = false.
Proof.
  intros Hm. unfold merge_throws. apply not_true_is_false. rewrite existsb_exists.
  intros ([k v] & Hin & Ht). apply list_elem_of_In, elem_of_map_to_list, Hm in Hin.
  unfold throws_at in Ht. cbn in Ht. by rewrite Hin, andb_false_r in Ht.
Qed.

(** *** [extract_rules] *)

Definition merge_fold (t : gmap string rule_conf) (L : list (gmap string jvalue)) :=
  foldl (fun acc s => t <-? acc ;; mergeRuleConfigs t s) (Ok t) L.

Lemma merge_fold_Err t L e :
  plain_target t -> merge_fold t L = Err e <-> Exists (fun s => merge_throws s = true) L.
Proof.
  unfold merge_fold. revert t. induction L as [|s L IH]; intros t Ht; cbn [foldl result_bind].
  { split; [done|]. by intros ?%Exists_nil. }
  rewrite Exists_cons. destruct (mergeRuleConfigs t s) as [t1|e1] eqn:Hm.
  - rewrite IH by (by eapply mergeRuleConfigs_plain). destruct (merge_throws s) eqn:Hs; [|naive_solver].
    exfalso. apply (mergeRuleConfigs_Err t s PushNotAFunction Ht) in Hs. congruence.
  - rewrite foldl_bind_Err. apply mergeRuleConfigs_Err in Hm; [|done]. destruct e, e1. naive_solver.
Qed.

Lemma merge_fold_lookup t L m k :
  plain_target t -> merge_fold t L = Ok m ->
  m !! k = foldl merge_opt (t !! k) (map (fun s => if plain_key k then s !! k else None) L).
Proof.
  unfold merge_fold. revert t. induction L as [|s L IH]; intros t Ht Hf; cbn [foldl result_bind map] in *.
  { by injection Hf as ->. }
  destruct (mergeRuleConfigs t s) as [t1|e1] eqn:Hm; [|by rewrite foldl_bind_Err in Hf].
  rewrite (IH t1) by (done || by eapply mergeRuleConfigs_plain).
  by rewrite (mergeRuleConfigs_lookup t s t1).
Qed.

Lemma Exists_rev_iff {A} (P : A -> Prop) (l : list A) : Exists P (rev l) <-> Exists P l.
Proof. rewrite !Exists_exists. by setoid_rewrite list_elem_of_In; setoid_rewrite <-in_rev. Qed.

Lemma extract_rules_Err srcs e :
  extract_rules srcs = Err e <-> Exists (fun s => merge_throws s = true) srcs.
Proof.
  change (extract_rules srcs) with (merge_fold ∅ (rev srcs)).
  rewrite merge_fold_Err by apply plain_target_empty. apply Exists_rev_iff.
Qed.

(** *** The setting of one rule *)

(** A setting of more or fewer than one element is never changed. *)
Lemma merge_fixed (os : list (option jvalue)) td :
  length td <> 1%nat -> foldl merge_opt (Some td) os = Some td.
Proof.
  intros Hl. induction os as [|o os IH]; [done|]; destruct o as [v|]; [|exact IH].
  cbn [foldl merge_opt merge_entry]. apply Nat.eqb_neq in Hl. by rewrite Hl.
Qed.

(** A bare severity takes the options of the first array with options. *)
Lemma merge_bare (os : list (option jvalue)) td :
  length td = 1%nat ->
  foldl merge_opt (Some td) os =
  Some (match List.find has_options (omap id os) with
        | Some (JArr xs) => td ++ tail xs
        | _ => td
        end).
Proof.
  intros Hl. induction os as [|o os IH]; [done|]; destruct o as [v|]; [|exact IH].
  cbn [foldl merge_opt merge_entry omap list_omap List.find id]. rewrite Hl. cbn [Nat.eqb andb].
  destruct (has_options v) eqn:Hv; [|exact IH].
  destruct v as [| | | |xs|]; try discriminate. cbn [to_rule_conf].
  apply merge_fixed. rewrite length_app, Hl. simpl in Hv.
  destruct xs as [|x [|y xs]]; simpl in *; [done|done|lia].
Qed.

Lemma merge_from_none (os : list (option jvalue)) :
  foldl merge_opt None os = spec_setting (omap id os).
Proof.
  induction os as [|o os IH]; [done|]; destruct o as [v|]; simpl; [|exact IH].
  destruct (length (to_rule_conf v) =? 1)%nat eqn:Hl.
  - apply Nat.eqb_eq in Hl. by rewrite merge_bare.
  - apply Nat.eqb_neq in Hl. by apply merge_fixed.
Qed.

Lemma merge_all_none (L : list (gmap string jvalue)) :
  foldl merge_opt None (map (fun _ => None) L) = None.
Proof. induction L; simpl; done. Qed.

Lemma omap_id_map {A B} (g : A -> option B) (L : list A) :
  omap id (map g L) = omap g L.
Proof. induction L as [|a L IH]; [done|]. simpl. destruct (g a); simpl; [f_equal|]; exact IH. Qed.

Lemma extract_rules_lookup srcs m k :
  extract_rules srcs = Ok m -> m !! k = spec_rule srcs k.
Proof.
  intros H. change (extract_rules srcs) with (merge_fold ∅ (rev srcs)) in H.
  rewrite (merge_fold_lookup _ _ _ k plain_target_empty H), lookup_empty. unfold spec_rule.
  destruct (plain_key k); [|apply merge_all_none].
  rewrite merge_from_none. f_equal. apply (omap_id_map (fun m : gmap string jvalue => m !! k)).
Qed.

(** Sources that do not throw give every rule its specified setting. *)
Lemma extract_rules_Ok srcs k :
  Forall (fun s => merge_throws s = false) srcs ->
  rule_of (extract_rules srcs) k = Ok (spec_rule srcs k).
Proof.
  intros Hs. destruct (extract_rules srcs) as [m|e] eqn:E.
  - cbn. f_equal. by apply extract_rules_lookup.
  - apply extract_rules_Err, Exists_exists in E as (s & Hin & Ht).
    eapply Forall_forall in Hs; [|done]. congruence.
Qed.

Lemma merge_fold_all_empty (L : list (gmap string jvalue)) :
  Forall (fun m => m = ∅) L -> merge_fold ∅ L = Ok ∅.
Proof.
  unfold merge_fold. induction 1 as [|m L -> _ IH]; [done|].
  cbn [foldl result_bind]. unfold mergeRuleConfigs at 2. by rewrite map_to_list_empty.
Qed.

(** Elements without rules put no rule in force. *)
Lemma extract_rules_all_empty (srcs : list (gmap string jvalue)) :
  Forall (fun m => m = ∅) srcs -> extract_rules srcs = Ok ∅.
Proof. intros Hall. apply merge_fold_all_empty, Forall_rev, Hall. Qed.

(** Elements without rules after the others change nothing. *)
Lemma extract_rules_app_empty (L E : list (gmap string jvalue)) :
  Forall (fun m => m = ∅) E -> extract_rules (L ++ E) = extract_rules L.
Proof.
  intros HE. unfold extract_rules. rewrite rev_app_distr, foldl_app.
  change (foldl _ (Ok ∅) (rev E)) with (extract_rules E).
  by rewrite extract_rules_all_empty.
Qed.

Lemma rule_severity_lookup_bounds (l : string) :
  to_lower l = l ->
  match rule_severity_lookup l with
  | SevNum n => (0 <= n <= 2)%Z
  | SevInherited name => name = "constructor" \/ name = "__proto__"
  end.
Proof.
  intros Hl. unfold rule_severity_lookup.
  repeat case_match; simplify_eq; try lia. apply lower_inherited; [done|]. by apply negb_true_iff.
Qed.

(** C13: the rules [createConfig] computes refine the specification:
    the merge fails, with the [TypeError] of [targetDef.push], exactly
    when an element sets a name whose [Object.prototype] function has
    length 1 to an array with options; otherwise every rule gets the
    setting of the highest-precedence element that sets it, a bare
    severity completed with the options of the first array with options
    below it, and a name the target inherits something under gets
    nothing. *)
Theorem extract_rules_refines (srcs : list (gmap string jvalue)) :
  (extract_rules srcs = Err PushNotAFunction <-> Exists (fun s => merge_throws s = true) srcs) /\
  (forall m k, extract_rules srcs = Ok m -> m !! k = spec_rule srcs k).
Proof. split; [apply extract_rules_Err | intros m k; apply extract_rules_lookup]. Qed.

(** C14: the severity in force for a rule with a plain name is the
    severity of the highest-precedence element that sets it, whatever the
    elements below it say, as long as that setting is not an empty array
    and no element makes the merge throw. *)
Theorem severity_first_found (srcs : list (gmap string jvalue)) (k : string) v rest :
  plain_key k = true -> Forall (fun s => merge_throws s = false) srcs ->
  omap (fun m => m !! k) (rev srcs) = v :: rest ->
  v <> JArr [] ->
  exists conf, rule_of (extract_rules srcs) k = Ok (Some conf) /\
               getRuleSeverity (JArr conf) = getRuleSeverity v.
Proof.
  intros Hk Hth Hs Hv. rewrite extract_rules_Ok by done. unfold spec_rule. rewrite Hk, Hs.
  eexists; split; [done|].
  destruct v as [| | | |[|x xs]|]; [..|congruence| |]; simpl; repeat case_match; reflexivity.
Qed.


(** ** Witnesses *)

Lemma severity_first_found_witness :
  exists conf,
    rule_of (extract_rules [{["no-console" := JArr [JNum 2; JStr "allow"]]};
                            {["no-console" := JStr "warn"]}]) "no-console" = Ok (Some conf) /\
    getRuleSeverity (JArr conf) = getRuleSeverity (JStr "warn").
Proof.
  apply (severity_first_found _ _ _ [JArr [JNum 2; JStr "allow"]]);
    [reflexivity | repeat constructor | vm_compute; reflexivity | discriminate].
Defined.

End Rules.
