(* ===== verification/Config.v ===== *)
(** * The eslintrc loader: from the exported object to the rules of a file

    This file models the parts of @eslint/eslintrc that read an exported
    configuration object: the schema check and decoding into typed records
    ([decode_config], with [SchemaError] results), the normalisation into a
    configuration array ([normalize]: the base element, then one element
    per override with an [OverrideTester]), [OverrideTester.create] with
    its [InvalidOverridePattern] error, [OverrideTester.test] on the path
    of a file relative to the configuration's directory, the rules in
    force for a file ([extractRules], which merges with [Rules.extract_rules]
    and fails with its [TypeError]) and [isAdditionalTargetPath], which decides with the default extension
    whether a directory walk lints a file.

    The glob matcher is a parameter: the typeclass [Matcher] states what
    the loader needs of it, and [Glob.minimatch] is its instance. *)

From S2P Require Import Prelude JsValue Glob Rules.

(** What the loader needs of a glob matcher: a test of a pattern against
    a path split at "/". *)
Class Matcher := { match_pattern : string -> list string -> bool }.

#[export] Instance minimatch_matcher : Matcher := {| match_pattern := Glob.minimatch |}.

Module Config.

Inductive load_error : Type :=
| SchemaError (what : string)
| InvalidOverridePattern (pattern : string).

(** ** Typed configuration records *)

(** An override block. *)
Record Override : Type := {
  ov_files : list string;
  ov_excludedFiles : list string;
  ov_rules : gmap string jvalue;
}.

(** A configuration file's object. *)
Record ConfigData : Type := {
  cfg_rules : gmap string jvalue;
  cfg_overrides : list Override;
}.

(** ** Decoding (the schema check of ConfigValidator and the reads of
    ConfigArrayFactory) *)

Definition base_keys : list string :=
  ["$schema"; "env"; "extends"; "globals"; "overrides"; "parser"; "parserOptions";
   "plugins"; "processor"; "rules"; "settings"; "noInlineConfig";
   "reportUnusedDisableDirectives"; "ecmaFeatures"].

(** Properties a configuration file may have ([additionalProperties: false]). *)
Definition config_keys : list string := base_keys ++ ["ignorePatterns"; "root"].

(** Properties an override block may have. *)
Definition override_keys : list string := base_keys ++ ["excludedFiles"; "files"].

Definition keys_known (allowed : list string) (props : list (string * jvalue)) : bool :=
  forallb (fun kv => bool_decide (kv.1 ∈ allowed)) props.

Fixpoint strings_of (xs : list jvalue) : option (list string) :=
  match xs with
  | [] => Some []
  | JStr s :: xs' => match strings_of xs' with Some ss => Some (s :: ss) | None => None end
  | _ :: _ => None
  end.

(** [files] ([stringOrStringsRequired]: a string or a non-empty array of
    strings) when [required], else [excludedFiles] ([stringOrStrings],
    absent meaning none). *)
Definition decode_patterns (required : bool) (what : string) (v : option jvalue)
  : result load_error (list string) :=
  match v with
  | None => if required then Err (SchemaError what) else Ok []
  | Some (JStr s) => Ok [s]
  | Some (JArr xs) =>
      match strings_of xs with
      | Some ss => if required && bool_decide (ss = []) then Err (SchemaError what) else Ok ss
      | None => Err (SchemaError what)
      end
  | Some _ => Err (SchemaError what)
  end.

(** An object's own properties as a map, the last occurrence of a key
    taking effect. *)
Definition obj_to_map (props : list (string * jvalue)) : gmap string jvalue :=
  foldl (fun m kv => <[kv.1 := kv.2]> m) ∅ props.

Definition decode_rules (v : option jvalue) : result load_error (gmap string jvalue) :=
  match v with
  | None => Ok ∅
  | Some (JObj props) => Ok (obj_to_map props)
  | Some _ => Err (SchemaError "rules")
  end.

Definition decode_override (v : jvalue) : result load_error Override :=
  match v with
  | JObj props =>
      if keys_known override_keys props then
        files <-? decode_patterns true "files" (jget props "files") ;;
        ex <-? decode_patterns false "excludedFiles" (jget props "excludedFiles") ;;
        rules <-? decode_rules (jget props "rules") ;;
        Ok {| ov_files := files; ov_excludedFiles := ex; ov_rules := rules |}
      else Err (SchemaError "overrides")
  | _ => Err (SchemaError "overrides")
  end.

Definition decode_config (v : jvalue) : result load_error ConfigData :=
  match v with
  | JObj props =>
      if keys_known config_keys props then
        rules <-? decode_rules (jget props "rules") ;;
        ovs <-? match jget props "overrides" with
                | None => Ok []
                | Some (JArr xs) => all_ok (map decode_override xs)
                | Some _ => Err (SchemaError "overrides")
                end ;;
        Ok {| cfg_rules := rules; cfg_overrides := ovs |}
      else Err (SchemaError "config")
  | _ => Err (SchemaError "config")
  end.

(** ** Override testers *)

(** An [OverrideTester]: the include and exclude patterns, the directory
    of the configuration file (an absolute path as its segments), and
    whether a pattern ends with "*". *)
Record OverrideTester : Type := {
  ot_includes : list string;
  ot_excludes : list string;
  ot_basePath : list string;
  ot_endsWithWildcard : bool;
}.

(** [normalizePatterns] on decoded patterns: [p.filter(Boolean)] drops
    empty strings. *)
Definition normalizePatterns (ps : list string) : list string :=
  filter (fun p => p <> "") ps.

Definition is_absolute (p : string) : bool :=
  match list_ascii_of_string p with
  | c :: _ => Ascii.eqb c "/"%char
  | [] => false
  end.

(** [pattern.includes("..")]. *)
Fixpoint contains_dotdot (s : list ascii) : bool :=
  match s with
  | c :: ((d :: _) as s') => (Ascii.eqb c "."%char && Ascii.eqb d "."%char) || contains_dotdot s'
  | _ => false
  end.

Definition bad_pattern (p : string) : bool :=
  is_absolute p || contains_dotdot (list_ascii_of_string p).

Definition ends_with_star (p : string) : bool :=
  ends_with ["*"%char] (list_ascii_of_string p).

(** [OverrideTester.create(files, excludedFiles, basePath)]: no include
    pattern gives no tester ([null]: the block applies to every file); an
    absolute pattern or one containing ".." is an error, includes checked
    before excludes.  [endsWithWildcard] is set in the loop over the
    include patterns only; the loop over the exclude patterns just checks
    them. *)
Definition OverrideTester_create (files excluded : list string) (basePath : list string)
  : result load_error (option OverrideTester) :=
  let inc := normalizePatterns files in
  let exc := normalizePatterns excluded in
  match inc with
  | [] => Ok None
  | _ =>
      match List.find bad_pattern (inc ++ exc) with
      | Some p => Err (InvalidOverridePattern p)
      | None =>
          Ok (Some {| ot_includes := inc; ot_excludes := exc; ot_basePath := basePath;
                      ot_endsWithWildcard := existsb ends_with_star inc |})
      end
  end.

(** [path.relative(from, to)] on normalised absolute paths. *)
Fixpoint path_relative (from to : list string) : list string :=
  match from, to with
  | b :: from', f :: to' =>
      if String.eqb b f then path_relative from' to' else map (fun _ => "..") from ++ to
  | [], _ => to
  | _, [] => map (fun _ => "..") from
  end.

(** The relative path as minimatch reads it: ["".split("/")] is [[""]]. *)
Definition relative_segments (from to : list string) : list string :=
  match path_relative from to with
  | [] => [""]
  | r => r
  end.

(** ** Configuration arrays *)

Record Element : Type := {
  el_criteria : option OverrideTester;
  el_rules : gmap string jvalue;
}.

(** [ConfigArrayFactory]'s normalisation of one file's object: the base
    element, then one element per override block in order. *)
Definition normalize (cfg : ConfigData) (basePath : list string)
  : result load_error (list Element) :=
  els <-? all_ok (map (fun o =>
             t <-? OverrideTester_create (ov_files o) (ov_excludedFiles o) basePath ;;
             Ok {| el_criteria := t; el_rules := ov_rules o |}) (cfg_overrides cfg)) ;;
  Ok ({| el_criteria := None; el_rules := cfg_rules cfg |} :: els).

(** Loading an exported object found in the directory [basePath]. *)
Definition load (v : jvalue) (basePath : list string) : result load_error (list Element) :=
  cfg <-? decode_config v ;; normalize cfg basePath.

Section WithMatcher.
Context `{Matcher}.

(** [OverrideTester.test(filePath)]. *)
Definition tester_test (t : OverrideTester) (file : list string) : bool :=
  let rel := relative_segments (ot_basePath t) file in
  existsb (fun p => match_pattern p rel) (ot_includes t) &&
  negb (existsb (fun p => match_pattern p rel) (ot_excludes t)).

Definition element_applies (e : Element) (file : list string) : bool :=
  match el_criteria e with
  | None => true
  | Some t => tester_test t file
  end.

(** The rules of [extractConfig(filePath)]. *)
Definition extractRules (els : list Element) (file : list string)
  : result Rules.merge_error (gmap string Rules.rule_conf) :=
  Rules.extract_rules (map el_rules (filter (fun e => element_applies e file = true) els)).

(** [ConfigArray.isAdditionalTargetPath(filePath)]. *)
Definition isAdditionalTargetPath (els : list Element) (file : list string) : bool :=
  existsb (fun e => match el_criteria e with
                    | Some t => negb (ot_endsWithWildcard t) && tester_test t file
                    | None => false
                    end) els.

(** The test of [FileEnumerator] on a file met in a directory walk:
    its name ends with one of the extensions ([".js"] by default), or an
    override pattern that does not end with "*" selects it. *)
Definition is_lint_target (exts : list string) (els : list Element) (file : list string) : bool :=
  existsb (fun ext => ends_with (list_ascii_of_string ext)
                        (list_ascii_of_string (List.last file ""))) exts ||
  isAdditionalTargetPath els file.

End WithMatcher.

Definition default_extensions : list string := [".js"].

(** What [OverrideTester.create] guarantees of a tester it builds for a
    configuration in the directory [base]: at least one include pattern,
    every pattern non-empty, relative and free of "..", and the
    configuration's directory as its base path. *)
Definition tester_wf (base : list string) (t : OverrideTester) : Prop :=
  ot_includes t <> [] /\
  Forall (fun p => p <> "" /\ bad_pattern p = false) (ot_includes t ++ ot_excludes t) /\
  ot_basePath t = base.

(** The invariant of a configuration array loaded from [base]. *)
Definition elements_wf (base : list string) (els : list Element) : Prop :=
  Forall (fun e => match el_criteria e with Some t => tester_wf base t | None => True end) els.

(** ** Lemmas *)

Lemma obj_to_map_foldl (props : list (string * jvalue)) (acc : gmap string jvalue) k :
  foldl (fun m kv => <[kv.1 := kv.2]> m) acc props !! k =
  match jget props k with Some v => Some v | None => acc !! k end.
Proof.
  revert acc. induction props as [|[k' v] props IH]; intros acc; simpl; [done|].
  rewrite IH. destruct (jget props k); [done|].
  destruct (String.eqb_spec k k') as [->|Hk].
  - by rewrite lookup_insert_eq.
  - by rewrite lookup_insert_ne by congruence.
Qed.

(** The decoded [rules] map answers every rule name as reading the
    property of the object literal does. *)
Theorem obj_to_map_lookup (props : list (string * jvalue)) (k : string) :
  obj_to_map props !! k = jget props k.
Proof.
  unfold obj_to_map. rewrite obj_to_map_foldl, lookup_empty. by destruct (jget props k).
Qed.

(** The path of a file below the configuration's directory,
    relative to that directory, is the rest of the file's path. *)
Theorem path_relative_app (base f : list string) :
  path_relative base (base ++ f) = f.
Proof.
  induction base as [|b base IH]; simpl; [by destruct f|].
  by rewrite String.eqb_refl.
Qed.

Lemma relative_segments_app (base f : list string) :
  f <> [] -> relative_segments base (base ++ f) = f.
Proof. intros Hf. unfold relative_segments. rewrite path_relative_app. by destruct f. Qed.

(** [OverrideTester.create] rejects the first absolute pattern or
    pattern containing ".." among the non-empty include and exclude
    patterns, as soon as there is an include pattern. *)
Theorem OverrideTester_create_error (files excluded basePath : list string) (p : string) :
  normalizePatterns files <> [] ->
  List.find bad_pattern (normalizePatterns files ++ normalizePatterns excluded) = Some p ->
  OverrideTester_create files excluded basePath = Err (InvalidOverridePattern p).
Proof.
  intros Hinc Hfind. unfold OverrideTester_create.
  destruct (normalizePatterns files) as [|q qs] eqn:Hn; [done|]. by rewrite Hfind.
Qed.

(** An override whose [files] holds no non-empty pattern (for
    instance [files: ""], which the schema accepts) gets no tester, so
    its block applies to every file. *)
Theorem override_without_patterns_applies_everywhere `{Matcher}
    (files excluded basePath : list string) rules (file : list string) :
  normalizePatterns files = [] ->
  exists e, (t <-? OverrideTester_create files excluded basePath ;;
             Ok {| el_criteria := t; el_rules := rules |}) = Ok e /\
            element_applies e file = true.
Proof.
  intros Hn. unfold OverrideTester_create. rewrite Hn. simpl. by eexists.
Qed.

(** The rules of the elements that apply to a file, when no element
    has rules, are all empty. *)
Lemma ruleless_filter (P : Element -> Prop) `{forall e, Decision (P e)} (els : list Element) :
  Forall (fun e => el_rules e = ∅) els ->
  Forall (fun m => m = ∅) (map el_rules (filter P els)).
Proof.
  intros Hall. apply List.Forall_map, Forall_forall. intros e He.
  apply list_elem_of_filter in He as [_ He]. by eapply Forall_forall in Hall.
Qed.

(** Elements without rules placed after the others leave the rules of
    every file as the others decide them. *)
Lemma extractRules_app_ruleless `{Matcher} (outer els : list Element) (file : list string) :
  Forall (fun e => el_rules e = ∅) els -> extractRules (outer ++ els) file = extractRules outer file.
Proof.
  intros Hall. unfold extractRules. rewrite filter_app, map_app.
  by apply Rules.extract_rules_app_empty, ruleless_filter.
Qed.

Lemma decode_patterns_required (what : string) (v : option jvalue) (ps : list string) :
  decode_patterns true what v = Ok ps -> ps <> [].
Proof.
  destruct v as [[| | | |xs|]|]; simpl; try discriminate.
  - intros [= <-]. done.
  - destruct (strings_of xs) as [ss|]; [|discriminate].
    destruct (bool_decide (ss = [])) eqn:Hb; simpl; [discriminate|].
    intros [= <-]. by apply bool_decide_eq_false in Hb.
Qed.

Lemma decode_override_files (v : jvalue) (o : Override) :
  decode_override v = Ok o -> ov_files o <> [].
Proof.
  destruct v as [| | | | |props]; simpl; try discriminate.
  destruct (keys_known override_keys props); [|discriminate].
  intros (files & Hf & Hrest)%result_bind_Ok.
  apply result_bind_Ok in Hrest as (ex & _ & Hrest).
  apply result_bind_Ok in Hrest as (rules & _ & [= <-]).
  by apply decode_patterns_required in Hf.
Qed.

Lemma all_ok_Forall {A B} (f : A -> result load_error B) (P : B -> Prop) (xs : list A) (ys : list B) :
  (forall x y, f x = Ok y -> P y) -> all_ok (map f xs) = Ok ys -> Forall P ys.
Proof.
  intros Hf. revert ys. induction xs as [|x xs IH]; intros ys; simpl.
  - intros [= <-]. constructor.
  - intros (y & Hy & Hrest)%result_bind_Ok. apply result_bind_Ok in Hrest as (l & Hl & [= <-]).
    constructor; [by eapply Hf | by apply IH].
Qed.

(** Every override block of a decoded configuration has at least
    one [files] pattern (the schema's [stringOrStringsRequired]). *)
Theorem decoded_overrides_have_files (v : jvalue) (cfg : ConfigData) :
  decode_config v = Ok cfg -> Forall (fun o => ov_files o <> []) (cfg_overrides cfg).
Proof.
  destruct v as [| | | | |props]; simpl; try discriminate.
  destruct (keys_known config_keys props); [|discriminate].
  intros (rules & _ & Hrest)%result_bind_Ok. apply result_bind_Ok in Hrest as (ovs & Hovs & [= <-]).
  simpl. destruct (jget props "overrides") as [[| | | |xs|]|]; try discriminate.
  - eapply all_ok_Forall; [apply decode_override_files | exact Hovs].
  - injection Hovs as <-. constructor.
Qed.

(** An override block without [files] is rejected by the schema. *)
Theorem decode_override_missing_files (props : list (string * jvalue)) :
  keys_known override_keys props = true -> jget props "files" = None ->
  decode_override (JObj props) = Err (SchemaError "files").
Proof. intros Hk Hf. simpl. by rewrite Hk, Hf. Qed.

Lemma normalizePatterns_nonempty (ps : list string) :
  Forall (fun p => p <> "") (normalizePatterns ps).
Proof.
  apply Forall_forall. intros p Hp. unfold normalizePatterns in Hp.
  by apply list_elem_of_filter in Hp as [? _].
Qed.

Lemma OverrideTester_create_wf (files excluded base : list string) (t : OverrideTester) :
  OverrideTester_create files excluded base = Ok (Some t) -> tester_wf base t.
Proof.
  unfold OverrideTester_create.
  pose proof (Forall_app_2 _ _ _ (normalizePatterns_nonempty files)
                (normalizePatterns_nonempty excluded)) as Hne.
  destruct (normalizePatterns files) as [|q qs] eqn:Hn; [done|].
  destruct (List.find bad_pattern _) eqn:Hf; [done|]. intros [= <-].
  split; [done|]. split; [|done]. cbn [ot_includes ot_excludes].
  apply Forall_forall. intros p Hp. split; [by eapply Forall_forall in Hne|].
  by apply (List.find_none _ _ Hf), list_elem_of_In.
Qed.


Lemma keys_known_app (allowed : list string) (props1 props2 : list (string * jvalue)) :
  keys_known allowed (props1 ++ props2) = keys_known allowed props1 && keys_known allowed props2.
Proof. apply forallb_app. Qed.

(** C23: a configuration object with a property the schema does not
    know (a misspelt ["overrides"], say) is rejected as a whole,
    whatever its other properties are. *)
Theorem decode_config_unknown_key (props : list (string * jvalue)) (k : string) (v : jvalue) :
  k ∉ config_keys -> decode_config (JObj (props ++ [(k, v)])) = Err (SchemaError "config").
Proof.
  intros Hk. simpl. rewrite keys_known_app. cbn [keys_known forallb fst].
  by rewrite bool_decide_eq_false_2, andb_false_r.
Qed.

(** Override patterns that end with "*" add no file to those a
    directory walk lints: only the patterns that do not end with "*"
    make [isAdditionalTargetPath] hold. *)
Theorem wildcard_testers_add_no_targets `{Matcher} (els : list Element) (file : list string) :
  Forall (fun e => match el_criteria e with
                   | Some t => ot_endsWithWildcard t = true
                   | None => True end) els ->
  isAdditionalTargetPath els file = false.
Proof.
  induction 1 as [|e els He _ IH]; [done|]. simpl. rewrite IH, orb_false_r.
  destruct (el_criteria e) as [t|]; [|done]. by rewrite He.
Qed.

(** ** Witnesses *)


Lemma decode_config_unknown_key_witness :
  decode_config (JObj ([] ++ [("overides", overrides_js files_js rules_js)])) =
  Err (SchemaError "config").
Proof.
  apply decode_config_unknown_key. apply (bool_decide_eq_false_1 ("overides" ∈ config_keys)).
  vm_compute. reflexivity.
Defined.

End Config.
