(* ===== verification/EslintRc.v ===== *)
(** * The configuration of src/.eslintrc.js and what it does

    The typed form of the exported object ([eslintrc]), its one override
    block ([src_override]) and pattern ([src_pattern]), and the variant
    with the commented-out rule of line 8 enabled.  The theorems show
    which files the pattern selects, that the block puts no rule in force,
    what the commented-out rule would do alone and under an outer
    configuration, which files a directory walk lints because of the
    block, and what a pattern ending with "*" would change. *)

From S2P Require Import Prelude JsValue Glob Rules Config.

Module EslintRc.
Import Rules Config.

(** ** The configuration *)

(** Line 5: the pattern of [files]. *)
Definition src_pattern : string := "src/**/*.{js,vue,jsx}".

(** Lines 4-10: the override block, with the rules of lines 7-9. *)
Definition src_override (rules : gmap string jvalue) : Override :=
  {| ov_files := [src_pattern]; ov_excludedFiles := []; ov_rules := rules |}.

(** Lines 1-12: the exported configuration; its rules object is empty. *)
Definition eslintrc : ConfigData :=
  {| cfg_rules := ∅; cfg_overrides := [src_override ∅] |}.

(** Lines 7-9 with line 8, ["no-console": "warn"], enabled. *)
Definition example_rules : gmap string jvalue := {["no-console" := JStr "warn"]}.

Definition eslintrc_with_example : ConfigData :=
  {| cfg_rules := ∅; cfg_overrides := [src_override example_rules] |}.

(** The configuration array the loader builds from src/.eslintrc.js found
    in the directory [base]. *)
Definition config_array (base : list string) : result load_error (list Element) :=
  load eslintrc_js base.

(** Lines 1-12 with line 5 reading ["files": ["src/**/*"]]. *)
Definition eslintrc_js_wildcard : jvalue :=
  JObj [("overrides", overrides_js (JArr [JStr "src/**/*"]) rules_js)].

(** ** What the pattern is meant to select *)

Definition src_exts : list string := ["js"; "vue"; "jsx"].

(** A path, relative to the configuration's directory, of a file under
    "src" (in any subdirectory other than "." and "..") whose name ends
    with ".js", ".vue" or ".jsx". *)
Definition in_src_with_ext (f : list string) : Prop :=
  exists dirs name ext,
    f = "src" :: dirs ++ [name] /\ Forall (fun s => Glob.dot_seg s = false) dirs /\
    ext ∈ src_exts /\
    exists stem, list_ascii_of_string name = stem ++ list_ascii_of_string ("." ++ ext).

(** A path with no empty segment: no trailing or doubled "/". *)
Definition no_empty_segment (f : list string) : Prop := Forall (fun s => s <> "") f.

(** ** Lemmas *)

Lemma list_ascii_of_string_inj (s t : string) :
  list_ascii_of_string s = list_ascii_of_string t -> s = t.
Proof.
  intros H. rewrite <-(string_of_list_ascii_of_string s), <-(string_of_list_ascii_of_string t).
  by rewrite H.
Qed.

(** The pattern expands to three patterns of three segments each. *)
Lemma minimatch_src_pattern (f : list string) :
  Glob.minimatch src_pattern f =
  existsb (fun ext => Glob.path_match
             [Glob.SegPat (map Glob.TChar (list_ascii_of_string "src")); Glob.GlobStar;
              Glob.SegPat (Glob.TStar :: map Glob.TChar (list_ascii_of_string ("." ++ ext)))] f)
          src_exts.
Proof.
  match goal with |- _ = ?b => transitivity (if b then true else false) end;
    [vm_compute; reflexivity | by destruct existsb].
Qed.

(** "dir/**/*suffix" matches the files under "dir" whose name ends with
    the suffix. *)
Lemma path_match_dir_star_suffix (d : string) (suf : list ascii) (f : list string) :
  (3 <= length suf)%nat -> no_empty_segment f ->
  Glob.path_match [Glob.SegPat (map Glob.TChar (list_ascii_of_string d)); Glob.GlobStar;
                   Glob.SegPat (Glob.TStar :: map Glob.TChar suf)] f = true <->
  exists dirs name, f = d :: dirs ++ [name] /\ Forall (fun s => Glob.dot_seg s = false) dirs /\
                    exists stem, list_ascii_of_string name = stem ++ suf.
Proof.
  intros Hsuf Hne. destruct f as [|s f]; [split; [done|naive_solver]|].
  rewrite Glob.path_match_seg_cons, Glob.seg_ok_lit, andb_true_iff, bool_decide_eq_true.
  rewrite Glob.path_match_globstar, Glob.swallow_iff by done. setoid_rewrite Glob.path_match_last.
  setoid_rewrite Glob.seg_ok_star_suffix; [|done].
  inversion Hne as [|? ? _ Hne']; subst. split.
  - intros [Hs (dirs & rest & -> & _ & Hd & name & [-> | ->] & Hstem)].
    + apply list_ascii_of_string_inj in Hs. subst. by exists dirs, name.
    + exfalso. apply Forall_app in Hne' as [_ Hr]. inversion Hr as [|? ? _ Hr'].
      inversion Hr'. congruence.
  - intros (dirs & name & Hf & Hd & Hstem). injection Hf as -> ->.
    split; [done|]. exists dirs, [name]. split; [done|]. split; [done|].
    split; [done|]. exists name. by split; [left|].
Qed.

Lemma src_ext_suffix_length (ext : string) :
  In ext src_exts -> (3 <= length (list_ascii_of_string ("." ++ ext)))%nat.
Proof. simpl. intros [<-|[<-|[<-|[]]]]; simpl; lia. Qed.

Lemma src_pattern_matches (f : list string) :
  no_empty_segment f ->
  Glob.minimatch src_pattern f = true <-> in_src_with_ext f.
Proof.
  intros Hne. rewrite minimatch_src_pattern, existsb_exists. split.
  - intros (ext & Hext & Hm).
    apply path_match_dir_star_suffix in Hm; [|by apply src_ext_suffix_length|done].
    destruct Hm as (dirs & name & -> & Hd & Hstem).
    exists dirs, name, ext. split; [done|]. split; [done|]. split; [|done].
    by apply list_elem_of_In.
  - intros (dirs & name & ext & Hf & Hd & Hext & Hstem). exists ext.
    split; [by apply list_elem_of_In|].
    apply path_match_dir_star_suffix; [|done|by exists dirs, name].
    by apply src_ext_suffix_length, list_elem_of_In.
Qed.

Lemma decode_eslintrc_eq : decode_config eslintrc_js = Ok eslintrc.
Proof. vm_compute. reflexivity. Qed.

Theorem decode_eslintrc_with_example :
  decode_config eslintrc_js_with_example = Ok eslintrc_with_example.
Proof. vm_compute. reflexivity. Qed.

(** The configuration array of the file found in the directory [base]. *)
Lemma load_elements (v : jvalue) (cfg : ConfigData) (rules : gmap string jvalue)
    (base : list string) :
  decode_config v = Ok cfg -> cfg = {| cfg_rules := ∅; cfg_overrides := [src_override rules] |} ->
  load v base =
  Ok [{| el_criteria := None; el_rules := ∅ |};
      {| el_criteria := Some {| ot_includes := [src_pattern]; ot_excludes := [];
                                ot_basePath := base; ot_endsWithWildcard := false |};
         el_rules := rules |}].
Proof. intros Hd ->. unfold load. rewrite Hd. reflexivity. Qed.

(** The block's tester is the pattern's match on the relative path. *)
Lemma src_tester_test (base file : list string) :
  tester_test {| ot_includes := [src_pattern]; ot_excludes := [];
                 ot_basePath := base; ot_endsWithWildcard := false |} file =
  Glob.minimatch src_pattern (relative_segments base file).
Proof. unfold tester_test. simpl. by rewrite orb_false_r, andb_true_r. Qed.

Lemma src_tester_below (base f : list string) :
  f <> [] ->
  tester_test {| ot_includes := [src_pattern]; ot_excludes := [];
                 ot_basePath := base; ot_endsWithWildcard := false |} (base ++ f) =
  Glob.minimatch src_pattern f.
Proof. intros Hf. by rewrite src_tester_test, relative_segments_app. Qed.

(** The rules of the elements that apply to a file, when every element
    has no rules, are none. *)
Lemma extractRules_no_rules `{Matcher} (els : list Element) (file : list string) :
  Forall (fun e => el_rules e = ∅) els -> extractRules els file = Ok ∅.
Proof.
  intros Hall. unfold extractRules. by apply Rules.extract_rules_all_empty, ruleless_filter.
Qed.

(** C2: loaded from the directory [base] that holds it (the
    repository's own directory), the configuration is the base element, which
    applies to every file, and the override block, which applies to a
    file below [base] exactly when the file is under "src" and has one of
    the three extensions. *)
Theorem src_block_applies (base f : list string) :
  no_empty_segment f -> f <> [] ->
  exists b e, load eslintrc_js base = Ok [b; e] /\ element_applies b (base ++ f) = true /\
              (element_applies e (base ++ f) = true <-> in_src_with_ext f).
Proof.
  intros Hne Hf. do 2 eexists. split; [apply (load_elements _ eslintrc ∅); [apply decode_eslintrc_eq|done]|].
  split; [done|]. cbn [element_applies el_criteria].
  rewrite src_tester_below by done. by apply src_pattern_matches.
Qed.

(** C4: the configuration puts no rule in force: for every file, the
    rules merged from the elements that apply to it are none. *)
Theorem eslintrc_rules_none (base file : list string) (els : list Element) :
  config_array base = Ok els -> extractRules els file = Ok ∅.
Proof.
  unfold config_array. rewrite (load_elements _ eslintrc ∅) by (apply decode_eslintrc_eq || done).
  intros Hl. injection Hl as <-. apply extractRules_no_rules. by repeat constructor.
Qed.

Lemma element_applies_src (rules : gmap string jvalue) (base f : list string) :
  f <> [] -> no_empty_segment f ->
  element_applies {| el_criteria := Some {| ot_includes := [src_pattern]; ot_excludes := [];
                                            ot_basePath := base; ot_endsWithWildcard := false |};
                     el_rules := rules |} (base ++ f) = true <-> in_src_with_ext f.
Proof. intros Hf Hne. cbn [element_applies el_criteria]. rewrite src_tester_below by done. by apply src_pattern_matches. Qed.

(** C5: with line 8 enabled, "no-console" is in force at severity
    ["warn"] for exactly the files the pattern selects, and unset for the
    others. *)
Theorem example_rule_effect (base f : list string) :
  no_empty_segment f -> f <> [] ->
  exists els, load eslintrc_js_with_example base = Ok els /\
    (in_src_with_ext f -> rule_of (extractRules els (base ++ f)) "no-console" = Ok (Some [JStr "warn"])) /\
    (~ in_src_with_ext f -> rule_of (extractRules els (base ++ f)) "no-console" = Ok None).
Proof.
  intros Hne Hf. eexists.
  split; [apply (load_elements _ eslintrc_with_example example_rules);
          [apply decode_eslintrc_with_example|done]|].
  unfold extractRules. rewrite !filter_cons, filter_nil.
  rewrite decide_True by done. case_decide as He; rewrite element_applies_src in He by done.
  - split; [intros _; vm_compute; reflexivity | done].
  - split; [done | intros _; vm_compute; reflexivity].
Qed.

Lemma last_app_ne {A} (l1 l2 : list A) (d : A) :
  l2 <> [] -> List.last (l1 ++ l2) d = List.last l2 d.
Proof.
  intros Hl2. induction l1 as [|x l1 IH]; [done|]. rewrite <-app_comm_cons, <-IH.
  simpl. destruct (l1 ++ l2) eqn:E; [|done]. apply app_eq_nil in E as [_ ->]. done.
Qed.

(** C3: a directory walk with the default extension lints a file below
    the configuration's directory when its name ends with ".js" or when
    the block's pattern selects it: the block adds the ".vue" and ".jsx"
    files under "src" to the files linted, and does not restrict linting
    to "src". *)
Theorem lint_targets (base f : list string) :
  no_empty_segment f -> f <> [] ->
  exists els, load eslintrc_js base = Ok els /\
    (is_lint_target default_extensions els (base ++ f) = true <->
     ends_with (list_ascii_of_string ".js") (list_ascii_of_string (List.last f "")) = true \/
     in_src_with_ext f).
Proof.
  intros Hne Hf. eexists.
  split; [apply (load_elements _ eslintrc ∅); [apply decode_eslintrc_eq|done]|].
  unfold is_lint_target, isAdditionalTargetPath, default_extensions.
  cbn [existsb el_criteria ot_endsWithWildcard negb andb].
  rewrite last_app_ne, src_tester_below, orb_false_r, orb_false_r, orb_true_iff by done.
  by rewrite orb_false_l, src_pattern_matches.
Qed.

(** C1: the pattern of line 5 selects exactly the files under "src",
    at any depth below it, whose name ends with ".js", ".vue" or ".jsx". *)
Theorem src_pattern_selects (f : list string) :
  no_empty_segment f ->
  Glob.minimatch src_pattern f = true <-> in_src_with_ext f.
Proof. apply src_pattern_matches. Qed.

(** C6: src/.eslintrc.js sets no [root], so ESLint puts the elements of
    the configurations of the directories above before its own; whatever
    those outer elements are, this file leaves the rules in force for
    every file as they decide them. *)
Theorem eslintrc_transparent_in_cascade `{Matcher} (outer els : list Element)
    (base file : list string) :
  config_array base = Ok els -> extractRules (outer ++ els) file = extractRules outer file.
Proof.
  unfold config_array. rewrite (load_elements _ eslintrc ∅) by (apply decode_eslintrc_eq || done).
  intros Hl. injection Hl as <-. apply extractRules_app_ruleless. by repeat constructor.
Qed.

(** C7: with line 8 enabled and an outer configuration setting
    "no-console" to a severity with options, a file the pattern selects
    gets the severity "warn" of line 8 completed with the outer options,
    and any other file keeps the outer setting. *)
Theorem example_rule_over_outer (base f : list string) (sev o : jvalue) (opts : list jvalue) :
  no_empty_segment f -> f <> [] ->
  exists els, load eslintrc_js_with_example base = Ok els /\
    let outer := {| el_criteria := None; el_rules := {["no-console" := JArr (sev :: o :: opts)]} |} in
    rule_of (extractRules (outer :: els) (base ++ f)) "no-console" =
      Ok (Some (if Glob.minimatch src_pattern f then JStr "warn" :: o :: opts else sev :: o :: opts)).
Proof.
  intros Hne Hf. eexists.
  split; [apply (load_elements _ eslintrc_with_example example_rules);
          [apply decode_eslintrc_with_example|done]|].
  unfold extractRules. rewrite !filter_cons, filter_nil, !decide_True by done.
  cbn [element_applies el_criteria]. rewrite src_tester_below by done.
  case_decide as He; [rewrite He | apply not_true_is_false in He; rewrite He];
    reflexivity.
Qed.

(** C24: had line 5 read ["files": ["src/**/*"]], a pattern ending with
    "*", the block would add no file to those a directory walk lints:
    the walk would lint the ".js" files only, and no ".vue" or ".jsx"
    file under "src". *)
Theorem wildcard_block_adds_no_targets (base f : list string) :
  exists els, load eslintrc_js_wildcard base = Ok els /\
    is_lint_target default_extensions els (base ++ f) =
    ends_with (list_ascii_of_string ".js") (list_ascii_of_string (List.last (base ++ f) "")).
Proof.
  eexists. split; [reflexivity|]. unfold is_lint_target, default_extensions.
  rewrite wildcard_testers_add_no_targets by (repeat constructor). cbn [existsb].
  by rewrite !orb_false_r.
Qed.

(** ** Witnesses *)

Lemma src_pattern_selects_witness :
  Glob.minimatch src_pattern ["src"; "views"; "App.vue"] = true <->
  in_src_with_ext ["src"; "views"; "App.vue"].
Proof. apply src_pattern_selects. repeat constructor; discriminate. Defined.

Lemma src_block_applies_witness :
  exists b e, load eslintrc_js ["home"; "app"] = Ok [b; e] /\
    element_applies b (["home"; "app"] ++ ["src"; "main.js"]) = true /\
    (element_applies e (["home"; "app"] ++ ["src"; "main.js"]) = true <->
     in_src_with_ext ["src"; "main.js"]).
Proof. apply src_block_applies; [repeat constructor; discriminate | discriminate]. Defined.

Lemma eslintrc_rules_none_witness :
  exists els, config_array ["home"; "app"] = Ok els /\
              extractRules els ["home"; "app"; "src"; "main.js"] = Ok ∅.
Proof.
  eexists. split; [vm_compute; reflexivity|].
  apply (eslintrc_rules_none ["home"; "app"]). vm_compute. reflexivity.
Defined.

Lemma lint_targets_witness :
  exists els, load eslintrc_js ["home"; "app"] = Ok els /\
    (is_lint_target default_extensions els (["home"; "app"] ++ ["src"; "App.vue"]) = true <->
     ends_with (list_ascii_of_string ".js") (list_ascii_of_string (List.last ["src"; "App.vue"] "")) = true \/
     in_src_with_ext ["src"; "App.vue"]).
Proof. apply lint_targets; [repeat constructor; discriminate | discriminate]. Defined.

Lemma example_rule_effect_witness :
  exists els, load eslintrc_js_with_example ["home"; "app"] = Ok els /\
    (in_src_with_ext ["src"; "main.js"] ->
     rule_of (extractRules els (["home"; "app"] ++ ["src"; "main.js"])) "no-console" =
     Ok (Some [JStr "warn"])) /\
    (~ in_src_with_ext ["src"; "main.js"] ->
     rule_of (extractRules els (["home"; "app"] ++ ["src"; "main.js"])) "no-console" = Ok None).
Proof. apply example_rule_effect; [repeat constructor; discriminate | discriminate]. Defined.

Lemma eslintrc_transparent_in_cascade_witness :
  exists els, config_array ["home"; "app"] = Ok els /\
    extractRules ([{| el_criteria := None; el_rules := {["semi" := JStr "error"]} |}] ++ els)
                 ["home"; "app"; "src"; "main.js"] =
    extractRules [{| el_criteria := None; el_rules := {["semi" := JStr "error"]} |}]
                 ["home"; "app"; "src"; "main.js"].
Proof.
  eexists. split; [vm_compute; reflexivity|].
  apply (eslintrc_transparent_in_cascade _ _ ["home"; "app"]). vm_compute. reflexivity.
Defined.

Lemma example_rule_over_outer_witness :
  exists els, load eslintrc_js_with_example ["home"; "app"] = Ok els /\
    let outer := {| el_criteria := None;
                    el_rules := {["no-console" := JArr [JStr "error"; JStr "allow"]]} |} in
    rule_of (extractRules (outer :: els) (["home"; "app"] ++ ["src"; "main.js"])) "no-console" =
      Ok (Some (if Glob.minimatch src_pattern ["src"; "main.js"]
                then [JStr "warn"; JStr "allow"] else [JStr "error"; JStr "allow"])).
Proof. apply example_rule_over_outer; [repeat constructor; discriminate | discriminate]. Defined.

End EslintRc.
