(* ===== verification/Encode.v ===== *)
(** * Writing a configuration as an object literal

    The inverse direction of the loader's decoding: [config_to_js] writes
    a typed configuration as the object literal a configuration file
    exports, the way src/.eslintrc.js is written (a [files] array of
    strings, a [rules] object, and the keys whose value would be empty left
    out).  The theorems show that decoding a written configuration gives
    it back whenever every override has a [files] pattern, which is
    exactly what decoding guarantees. *)

From S2P Require Import Prelude JsValue Config EslintRc.

Module Encode.
Import Config.

(** ** The printer *)

Definition patterns_to_js (ps : list string) : jvalue := JArr (map JStr ps).

(** A rules map as an object literal, one property per rule. *)
Definition rules_to_js (m : gmap string jvalue) : jvalue := JObj (map_to_list m).

Definition override_to_js (o : Override) : jvalue :=
  JObj ([("files", patterns_to_js (ov_files o))] ++
        (if bool_decide (ov_excludedFiles o = []) then []
         else [("excludedFiles", patterns_to_js (ov_excludedFiles o))]) ++
        [("rules", rules_to_js (ov_rules o))]).

Definition config_to_js (c : ConfigData) : jvalue :=
  JObj ((if bool_decide (cfg_rules c = ∅) then [] else [("rules", rules_to_js (cfg_rules c))]) ++
        [("overrides", JArr (map override_to_js (cfg_overrides c)))]).

(** The configurations the printer and the decoder agree on: every
    override block has a [files] pattern. *)
Definition config_wf (c : ConfigData) : Prop :=
  Forall (fun o => ov_files o <> []) (cfg_overrides c).

(** ** Lemmas *)

Lemma strings_of_map_JStr (ps : list string) : strings_of (map JStr ps) = Some ps.
Proof. induction ps as [|p ps IH]; simpl; [done|]. by rewrite IH. Qed.

Lemma decode_rules_to_js (m : gmap string jvalue) :
  decode_rules (Some (rules_to_js m)) = Ok m.
Proof.
  simpl. f_equal. apply map_eq. intros k.
  rewrite obj_to_map_lookup, jget_list_to_map by apply NoDup_fst_map_to_list.
  by rewrite list_to_map_to_list.
Qed.

Lemma decode_required_patterns (what : string) (ps : list string) :
  ps <> [] -> decode_patterns true what (Some (patterns_to_js ps)) = Ok ps.
Proof.
  intros Hps. simpl. rewrite strings_of_map_JStr. simpl.
  by rewrite bool_decide_eq_false_2.
Qed.

Lemma decode_optional_patterns (what : string) (ps : list string) :
  decode_patterns false what (Some (patterns_to_js ps)) = Ok ps.
Proof. simpl. by rewrite strings_of_map_JStr. Qed.

Lemma decode_override_to_js (o : Override) :
  ov_files o <> [] -> decode_override (override_to_js o) = Ok o.
Proof.
  intros Hf. destruct o as [files ex rules]; simpl in Hf. unfold override_to_js, decode_override.
  cbn [ov_files ov_excludedFiles ov_rules].
  destruct (bool_decide (ex = [])) eqn:Hex; cbn [app]; simpl keys_known; simpl jget;
    rewrite decode_required_patterns by done; cbn [result_bind].
  - apply bool_decide_eq_true in Hex as ->. by rewrite decode_rules_to_js.
  - by rewrite decode_optional_patterns, decode_rules_to_js.
Qed.

Lemma all_ok_decode_overrides (ovs : list Override) :
  Forall (fun o => ov_files o <> []) ovs ->
  all_ok (map decode_override (map override_to_js ovs)) = Ok ovs.
Proof.
  induction 1 as [|o ovs Ho _ IH]; [done|].
  cbn [map all_ok]. rewrite decode_override_to_js by done. cbn [result_bind]. by rewrite IH.
Qed.

(** C20: decoding undoes writing: a configuration whose override blocks
    all have a [files] pattern, written as an object literal and read
    back by the loader, is the configuration itself. *)
Theorem decode_config_to_js (c : ConfigData) :
  config_wf c -> decode_config (config_to_js c) = Ok c.
Proof.
  intros Hwf. destruct c as [rules ovs]. unfold config_wf in Hwf; simpl in Hwf.
  unfold config_to_js, decode_config. cbn [cfg_rules cfg_overrides].
  destruct (bool_decide (rules = ∅)) eqn:Hr; cbn [app]; simpl keys_known; simpl jget.
  - apply bool_decide_eq_true in Hr as ->. cbn [decode_rules result_bind].
    by rewrite all_ok_decode_overrides.
  - rewrite decode_rules_to_js. cbn [result_bind]. by rewrite all_ok_decode_overrides.
Qed.

(** C21: every configuration the loader decodes is well formed: each of
    its override blocks has at least one [files] pattern. *)
Theorem decode_config_wf (v : jvalue) (c : ConfigData) :
  decode_config v = Ok c -> config_wf c.
Proof. apply decoded_overrides_have_files. Qed.

(** ** Witnesses *)

Lemma decode_config_to_js_witness :
  config_wf EslintRc.eslintrc_with_example /\
  decode_config (config_to_js EslintRc.eslintrc_with_example) = Ok EslintRc.eslintrc_with_example.
Proof.
  assert (H : config_wf EslintRc.eslintrc_with_example) by (repeat constructor; discriminate).
  split; [exact H | apply decode_config_to_js, H].
Defined.

Lemma decode_config_wf_witness : config_wf EslintRc.eslintrc.
Proof. apply (decode_config_wf eslintrc_js). vm_compute. reflexivity. Defined.

End Encode.
