(* ===== verification/Cascade.v ===== *)
(** * The cascade of configuration files up the directory tree

    ESLint's [CascadingConfigArrayFactory._loadConfigInAncestors] builds
    the configuration array of a directory: it loads the configuration
    file of the directory, stops when that file sets [root: true], and
    otherwise puts the array of the parent directory ([path.dirname])
    before it, up to the file system's root; the user's home directory
    counts as a root unless it is the working directory.  The base array
    goes in front of everything.

    [loadConfigInAncestors] is that recursion, by well-founded recursion
    on the length of the directory's path (the parent is not a
    subterm).  [walk_step] is the same walk as a small-step relation, one
    directory per step; the two are proved to agree, every walk is proved
    to end within one step per path segment plus one, and the
    repository's file, which sets no [root], is shown to let the walk go
    on from the repository's directory to the directories above it. *)

From S2P Require Import Prelude JsValue Config EslintRc.
From Equations Require Import Equations.

Module Cascade.
Import Config.

Section Walk.
(** [fs dir] is the configuration file of the directory [dir], if it has
    one; [home] and [cwd] are the user's home and working directories;
    [base] is the base configuration array. *)
Context (fs : list string -> option jvalue) (home cwd : list string) (base : list Element).

(** [directoryPath === homePath && cwd !== homePath]. *)
Definition stop_at_home (dir : list string) : bool :=
  bool_decide (dir = home) && negb (bool_decide (cwd = home)).

(** [configArrayFactory.loadInDirectory(directoryPath)] and
    [configArray.isRoot()]: the elements of the directory's file (none
    without a file) and its [root] property, a boolean by the schema and
    [false] when absent. *)
Definition load_in_directory (dir : list string) : result load_error (list Element * bool) :=
  match fs dir with
  | None => Ok ([], false)
  | Some v =>
      els <-? load v dir ;;
      match jprop v "root" with
      | None => Ok (els, false)
      | Some (JBool r) => Ok (els, r)
      | Some _ => Err (SchemaError "root")
      end
  end.

(** [_loadConfigInAncestors(directoryPath)]: the parent's array before the
    directory's own elements, unless the walk stops here. *)
Equations? loadConfigInAncestors (dir : list string) : result load_error (list Element)
  by wf (length dir) lt :=
  loadConfigInAncestors dir with stop_at_home dir => {
  | true := Ok base;
  | false with load_in_directory dir => {
    | Err e := Err e;
    | Ok (els, true) := Ok (base ++ els);
    | Ok (els, false) with dir => {
      | [] := Ok (base ++ els);
      | d :: ds := parent <-? loadConfigInAncestors (removelast (d :: ds)) ;; Ok (parent ++ els) } } }.
Proof. apply length_removelast_lt. Qed.

(** The walk one directory at a time: [Visiting dir below] is at [dir]
    with the elements of the directories already visited, [Done r] has
    the result. *)
Inductive walk_state : Type :=
| Visiting (dir : list string) (below : list Element)
| Done (r : result load_error (list Element)).

Inductive walk_step : walk_state -> walk_state -> Prop :=
| step_home dir below :
    stop_at_home dir = true ->
    walk_step (Visiting dir below) (Done (Ok (base ++ below)))
| step_error dir below e :
    stop_at_home dir = false -> load_in_directory dir = Err e ->
    walk_step (Visiting dir below) (Done (Err e))
| step_root dir below els :
    stop_at_home dir = false -> load_in_directory dir = Ok (els, true) ->
    walk_step (Visiting dir below) (Done (Ok (base ++ els ++ below)))
| step_fs_root below els :
    stop_at_home [] = false -> load_in_directory [] = Ok (els, false) ->
    walk_step (Visiting [] below) (Done (Ok (base ++ els ++ below)))
| step_parent d ds below els :
    stop_at_home (d :: ds) = false -> load_in_directory (d :: ds) = Ok (els, false) ->
    walk_step (Visiting (d :: ds) below) (Visiting (removelast (d :: ds)) (els ++ below)).

(** What is left of a walk: one step per directory still to visit. *)
Definition walk_measure (s : walk_state) : nat :=
  match s with
  | Visiting dir _ => S (length dir)
  | Done _ => 0
  end.

End Walk.

(** The repository checked out as the directory [name] of the directory
    [above], in a file system whose other configuration files [outer]
    gives: the repository's .eslintrc.js (src/.eslintrc.js of this
    development) is the configuration file of the repository's own
    directory [above ++ [name]]. *)
Definition repo_fs (outer : list string -> option jvalue) (above : list string) (name : string)
  : list string -> option jvalue :=
  fun d => if bool_decide (d = above ++ [name]) then Some eslintrc_js else outer d.

(** ** Lemmas *)

Section WalkLemmas.
Context (fs : list string -> option jvalue) (home cwd : list string) (base : list Element).

Lemma walk_step_measure s s' : walk_step fs home cwd base s s' -> (walk_measure s' < walk_measure s)%nat.
Proof.
  destruct 1; simpl; try lia. pose proof (length_removelast_lt d ds). simpl in *. lia.
Qed.

(** A walk of [n] steps uses up [n] of the measure. *)
Lemma walk_nsteps_measure n s s' :
  nsteps (walk_step fs home cwd base) n s s' -> (n + walk_measure s' <= walk_measure s)%nat.
Proof.
  induction 1 as [|n s1 s2 s3 Hs _ IH]; [lia|]. apply walk_step_measure in Hs. lia.
Qed.

(** A directory whose file does not stop the walk puts the parent's
    array before its own elements. *)
Lemma ancestors_parent dir els :
  dir <> [] -> stop_at_home home cwd dir = false ->
  load_in_directory fs dir = Ok (els, false) ->
  loadConfigInAncestors fs home cwd base dir =
  (parent <-? loadConfigInAncestors fs home cwd base (removelast dir) ;; Ok (parent ++ els)).
Proof.
  destruct dir as [|d ds]; [done|]. intros _ Hs Hl.
  rewrite (loadConfigInAncestors_equation_1 fs home cwd base (d :: ds)), Hs. simpl.
  by rewrite Hl.
Qed.

(** A directory whose file sets [root: true] ends the walk. *)
Lemma ancestors_root dir els :
  stop_at_home home cwd dir = false -> load_in_directory fs dir = Ok (els, true) ->
  loadConfigInAncestors fs home cwd base dir = Ok (base ++ els).
Proof.
  intros Hs Hl. rewrite (loadConfigInAncestors_equation_1 fs home cwd base dir), Hs. simpl.
  by rewrite Hl.
Qed.

Lemma ancestors_error dir e :
  stop_at_home home cwd dir = false -> load_in_directory fs dir = Err e ->
  loadConfigInAncestors fs home cwd base dir = Err e.
Proof.
  intros Hs Hl. rewrite (loadConfigInAncestors_equation_1 fs home cwd base dir), Hs. simpl.
  by rewrite Hl.
Qed.

End WalkLemmas.

(** The small-step walk from [dir] ends with the result of
    [loadConfigInAncestors dir], the elements already collected after it. *)
Lemma walk_reaches_ancestors fs home cwd base dir below :
  rtc (walk_step fs home cwd base) (Visiting dir below) (Done (p <-? loadConfigInAncestors fs home cwd base dir ;; Ok (p ++ below))).
Proof.
  revert below. funelim (loadConfigInAncestors fs home cwd base dir); intros below; cbn [result_bind];
    try (repeat rewrite <-app_assoc; apply rtc_once; econstructor; eassumption).
  eapply rtc_l; [by apply step_parent|].
  specialize (H (els ++ below)). cbn [removelast] in *.
  destruct (loadConfigInAncestors fs home cwd base _); simpl in *; [|done].
  by rewrite <-app_assoc.
Qed.

(** ** The repository in a file system *)

Lemma repo_fs_repo outer above name : repo_fs outer above name (above ++ [name]) = Some eslintrc_js.
Proof. unfold repo_fs. by rewrite bool_decide_eq_true_2. Qed.

Lemma repo_fs_above outer above name : repo_fs outer above name above = outer above.
Proof.
  unfold repo_fs. rewrite bool_decide_eq_false_2; [done|].
  intros H. apply (f_equal length) in H. rewrite length_app in H. simpl in H. lia.
Qed.

Lemma removelast_repo (above : list string) (name : string) : removelast (above ++ [name]) = above.
Proof. apply removelast_last. Qed.

(** The repository's directory has the file's elements and does not end
    the walk: the file sets no [root]. *)
Lemma load_in_directory_repo outer above name :
  load_in_directory (repo_fs outer above name) (above ++ [name]) =
  (els <-? EslintRc.config_array (above ++ [name]) ;; Ok (els, false)).
Proof.
  unfold load_in_directory, EslintRc.config_array. rewrite repo_fs_repo.
  rewrite (EslintRc.load_elements _ EslintRc.eslintrc ∅) by (apply EslintRc.decode_eslintrc_eq || done).
  reflexivity.
Qed.

Lemma config_array_repo (dir : list string) :
  exists els, EslintRc.config_array dir = Ok els /\ Forall (fun e => el_rules e = ∅) els.
Proof.
  eexists. split.
  - unfold EslintRc.config_array.
    apply (EslintRc.load_elements _ EslintRc.eslintrc ∅); [apply EslintRc.decode_eslintrc_eq|done].
  - by repeat constructor.
Qed.

(** The repository's directory puts the array of the directory above
    before the file's own elements. *)
Lemma repo_dir_continues outer above name home cwd base :
  stop_at_home home cwd (above ++ [name]) = false ->
  loadConfigInAncestors (repo_fs outer above name) home cwd base (above ++ [name]) =
  (parent <-? loadConfigInAncestors (repo_fs outer above name) home cwd base above ;;
   els <-? EslintRc.config_array (above ++ [name]) ;; Ok (parent ++ els)).
Proof.
  intros Hs. destruct (config_array_repo (above ++ [name])) as (els & Hels & _).
  rewrite Hels. cbn [result_bind].
  rewrite (ancestors_parent _ _ _ _ (above ++ [name]) els), removelast_repo;
    [done | by destruct above | done | by rewrite load_in_directory_repo, Hels].
Qed.

(** C12: a walk that starts in a directory of the repository, whatever
    the configuration files around the repository, ends after at most one
    step per segment of the directory's path plus one. *)
Theorem repo_walk_bounded outer above name home cwd base (g : list string) n s :
  nsteps (walk_step (repo_fs outer above name) home cwd base) n (Visiting (above ++ [name] ++ g) []) s ->
  (n <= length above + length g + 2)%nat.
Proof.
  intros Hn. apply walk_nsteps_measure in Hn. cbn [walk_measure] in Hn.
  rewrite !length_app in Hn. simpl in Hn. lia.
Qed.

(** C8: src/.eslintrc.js sets no [root], so the walk through the
    repository's directory, which holds it, goes on to the directory
    above: the array for the repository's directory is the array of the
    directory above followed by the file's own elements, unless the
    repository's directory is the home directory where the walk stops. *)
Theorem src_config_continues_cascade outer above name home cwd base :
  stop_at_home home cwd (above ++ [name]) = false ->
  loadConfigInAncestors (repo_fs outer above name) home cwd base (above ++ [name]) =
  (parent <-? loadConfigInAncestors (repo_fs outer above name) home cwd base above ;;
   els <-? EslintRc.config_array (above ++ [name]) ;; Ok (parent ++ els)).
Proof. apply repo_dir_continues. Qed.

(** C9: for every file, the rules in force under the whole cascade for
    the repository's directory are the rules the configurations of the
    directories above it put in force: the repository's file changes
    none of them. *)
Theorem cascade_rules_from_ancestors outer above name home cwd base (els : list Element) :
  stop_at_home home cwd (above ++ [name]) = false ->
  loadConfigInAncestors (repo_fs outer above name) home cwd base (above ++ [name]) = Ok els ->
  exists parent, loadConfigInAncestors (repo_fs outer above name) home cwd base above = Ok parent /\
                 forall file, extractRules els file = extractRules parent file.
Proof.
  intros Hs. rewrite repo_dir_continues by done.
  destruct (config_array_repo (above ++ [name])) as (own & Hown & Hrules). rewrite Hown.
  destruct (loadConfigInAncestors _ _ _ _ above) as [parent|]; simpl; [|done].
  intros [= <-]. exists parent. split; [done|]. intros file. by apply extractRules_app_ruleless.
Qed.

(** C10: a configuration file with [root: true] in the directory above
    the repository ends the walk there: the array for the repository's
    directory is the base array, the elements of that file and those of
    src/.eslintrc.js, whatever lies further up. *)
Theorem root_config_isolates outer above name home cwd base :
  outer above = Some (JObj [("root", JBool true)]) ->
  stop_at_home home cwd (above ++ [name]) = false -> stop_at_home home cwd above = false ->
  loadConfigInAncestors (repo_fs outer above name) home cwd base (above ++ [name]) =
  (els <-? EslintRc.config_array (above ++ [name]) ;;
   Ok (base ++ [{| el_criteria := None; el_rules := ∅ |}] ++ els)).
Proof.
  intros Ho Hs Hr. rewrite repo_dir_continues by done.
  rewrite (ancestors_root _ _ _ _ _ [{| el_criteria := None; el_rules := ∅ |}]); [|done|].
  - cbn [result_bind]. destruct (EslintRc.config_array _); simpl; [by rewrite <-app_assoc|done].
  - unfold load_in_directory. rewrite repo_fs_above, Ho. reflexivity.
Qed.

(** C11: a configuration file in the directory above the repository
    whose [root] is not a boolean fails the whole walk with a schema
    error: src/.eslintrc.js does not shield the repository's files from
    it. *)
Theorem cascade_parent_schema_error outer above name home cwd base :
  outer above = Some (JObj [("root", JStr "true")]) ->
  stop_at_home home cwd (above ++ [name]) = false -> stop_at_home home cwd above = false ->
  loadConfigInAncestors (repo_fs outer above name) home cwd base (above ++ [name]) =
  Err (SchemaError "root").
Proof.
  intros Ho Hs Hr. rewrite repo_dir_continues by done.
  rewrite (ancestors_error _ _ _ _ _ (SchemaError "root")); [done|done|].
  unfold load_in_directory. rewrite repo_fs_above, Ho. reflexivity.
Qed.

(** ** Witnesses *)

Lemma repo_walk_bounded_witness :
  (3 <= length ["home"; "u"] + length ["views"] + 2)%nat.
Proof.
  eapply (repo_walk_bounded (fun _ => None) ["home"; "u"] "app" ["home"; "u"] ["home"; "u"; "app"]
            [] ["views"] 3).
  eapply nsteps_l; [eapply step_parent; reflexivity|].
  eapply nsteps_l; [eapply step_parent; reflexivity|].
  eapply nsteps_l; [apply step_home; reflexivity|].
  apply nsteps_O.
Defined.

Lemma src_config_continues_cascade_witness :
  loadConfigInAncestors (repo_fs (fun _ => None) ["home"; "u"] "app") ["home"; "u"]
    ["home"; "u"; "app"] [] (["home"; "u"] ++ ["app"]) =
  (parent <-? loadConfigInAncestors (repo_fs (fun _ => None) ["home"; "u"] "app") ["home"; "u"]
                 ["home"; "u"; "app"] [] ["home"; "u"] ;;
   els <-? EslintRc.config_array (["home"; "u"] ++ ["app"]) ;; Ok (parent ++ els)).
Proof. apply src_config_continues_cascade. vm_compute. reflexivity. Defined.

Lemma cascade_rules_from_ancestors_witness :
  exists parent,
    loadConfigInAncestors (repo_fs (fun _ => None) ["home"; "u"] "app") ["home"; "u"]
      ["home"; "u"; "app"] [] ["home"; "u"] = Ok parent /\
    forall file,
      extractRules
        [{| el_criteria := None; el_rules := ∅ |};
         {| el_criteria := Some {| ot_includes := [EslintRc.src_pattern]; ot_excludes := [];
                                   ot_basePath := ["home"; "u"; "app"];
                                   ot_endsWithWildcard := false |};
            el_rules := ∅ |}] file = extractRules parent file.
Proof.
  apply (cascade_rules_from_ancestors (fun _ => None) ["home"; "u"] "app" ["home"; "u"]
           ["home"; "u"; "app"] []); vm_compute; reflexivity.
Defined.

Lemma root_config_isolates_witness :
  loadConfigInAncestors
    (repo_fs (fun d => if bool_decide (d = ["srv"])
                       then Some (JObj [("root", JBool true)]) else None) ["srv"] "app")
    ["home"; "u"] ["srv"; "app"] [] (["srv"] ++ ["app"]) =
  (els <-? EslintRc.config_array (["srv"] ++ ["app"]) ;;
   Ok ([] ++ [{| el_criteria := None; el_rules := ∅ |}] ++ els)).
Proof. apply root_config_isolates; vm_compute; reflexivity. Defined.

Lemma cascade_parent_schema_error_witness :
  loadConfigInAncestors
    (repo_fs (fun d => if bool_decide (d = ["srv"])
                       then Some (JObj [("root", JStr "true")]) else None) ["srv"] "app")
    ["home"; "u"] ["srv"; "app"] [] (["srv"] ++ ["app"]) =
  Err (SchemaError "root").
Proof. apply cascade_parent_schema_error; vm_compute; reflexivity. Defined.

End Cascade.
