(* ===== verification/SpecShape.v ===== *)
(** * The configuration's data model as the spec states it

    Sections 3 and 8 of the spec describe the configuration record: an
    object whose one field [overrides] is a non-empty sequence of entries,
    each an object with [files], a non-empty list of strings, and [rules],
    an object.  [spec_shape] states that shape, [spec_shapeb] checks it,
    and [spec_shapeb_reflect] relates the two.  [spec_config] is the
    spec's reading of such an object.  The theorems show that
    src/.eslintrc.js has the shape, that the loader's decoding of every
    object of that shape is the spec's reading of it, and that the loader
    also accepts objects outside the shape. *)

From S2P Require Import Prelude JsValue Config EslintRc Encode.

Module SpecShape.
Import Config.

(** ** The shape *)

Definition files_ok (o : option jvalue) : bool :=
  match o with
  | Some (JArr xs) => match strings_of xs with Some (_ :: _) => true | _ => false end
  | _ => false
  end.

Definition is_obj (o : option jvalue) : bool :=
  match o with Some (JObj _) => true | _ => false end.

(** An entry: an object with only [files] and [rules], [files] a
    non-empty list of strings, [rules] an object. *)
Definition entry_shape (v : jvalue) : Prop :=
  exists props, v = JObj props /\ Forall (fun kv => kv.1 ∈ ["files"; "rules"]) props /\
    (exists files, jget props "files" = Some (JArr (map JStr files)) /\ files <> []) /\
    (exists rules, jget props "rules" = Some (JObj rules)).

Definition entry_shapeb (v : jvalue) : bool :=
  match v with
  | JObj props =>
      keys_known ["files"; "rules"] props && files_ok (jget props "files") &&
      is_obj (jget props "rules")
  | _ => false
  end.

(** The configuration: an object with only [overrides], a non-empty
    array of entries. *)
Definition spec_shape (v : jvalue) : Prop :=
  exists props entries, v = JObj props /\ Forall (fun kv => kv.1 ∈ ["overrides"]) props /\
    jget props "overrides" = Some (JArr entries) /\ entries <> [] /\ Forall entry_shape entries.

Definition spec_shapeb (v : jvalue) : bool :=
  match v with
  | JObj props =>
      keys_known ["overrides"] props &&
      match jget props "overrides" with
      | Some (JArr ((_ :: _) as es)) => forallb entry_shapeb es
      | _ => false
      end
  | _ => false
  end.

(** ** The spec's reading *)

(** An entry as the spec reads it: its [files] and its [rules] mapping. *)
Definition entry_override (e : jvalue) : Override :=
  {| ov_files := match jprop e "files" with
                 | Some (JArr xs) => default [] (strings_of xs)
                 | _ => []
                 end;
     ov_excludedFiles := [];
     ov_rules := match jprop e "rules" with Some (JObj r) => obj_to_map r | _ => ∅ end |}.

Definition spec_config (v : jvalue) : ConfigData :=
  {| cfg_rules := ∅;
     cfg_overrides := match jprop v "overrides" with
                      | Some (JArr es) => map entry_override es
                      | _ => []
                      end |}.

(** ** Lemmas *)

Lemma strings_of_spec (xs : list jvalue) (ss : list string) :
  strings_of xs = Some ss <-> xs = map JStr ss.
Proof.
  split; [|intros ->; apply Encode.strings_of_map_JStr].
  revert ss. induction xs as [|[| | | s | |] xs IH]; intros ss; simpl; try discriminate.
  - by intros [= <-].
  - destruct (strings_of xs) as [ss'|] eqn:E; [|discriminate]. intros [= <-].
    simpl. f_equal. by apply IH.
Qed.

Lemma keys_known_spec (allowed : list string) (props : list (string * jvalue)) :
  keys_known allowed props = true <-> Forall (fun kv => kv.1 ∈ allowed) props.
Proof.
  unfold keys_known. rewrite forallb_forall, List.Forall_forall.
  by setoid_rewrite bool_decide_eq_true.
Qed.

Lemma files_ok_spec (o : option jvalue) :
  files_ok o = true <-> exists files, o = Some (JArr (map JStr files)) /\ files <> [].
Proof.
  destruct o as [[| | | |xs|]|]; simpl; try (split; [done|naive_solver]).
  destruct (strings_of xs) as [[|s ss]|] eqn:E.
  - apply strings_of_spec in E as ->. split; [done|].
    intros (files & Hf & Hne). injection Hf as Hf. symmetry in Hf. by apply map_eq_nil in Hf.
  - apply strings_of_spec in E as ->. split; [|done]. intros _. by eexists.
  - split; [done|]. intros (files & [= ->] & _). by rewrite Encode.strings_of_map_JStr in E.
Qed.

Lemma is_obj_spec (o : option jvalue) : is_obj o = true <-> exists r, o = Some (JObj r).
Proof. destruct o as [[| | | | |r]|]; simpl; naive_solver. Qed.

Lemma entry_shapeb_spec (v : jvalue) : entry_shapeb v = true <-> entry_shape v.
Proof.
  unfold entry_shapeb, entry_shape. destruct v as [| | | | |props]; try (split; [done|naive_solver]).
  rewrite !andb_true_iff, keys_known_spec, files_ok_spec, is_obj_spec. naive_solver.
Qed.

Lemma forallb_entry_shapeb (es : list jvalue) :
  forallb entry_shapeb es = true <-> Forall entry_shape es.
Proof.
  induction es as [|e es IH]; simpl; [split; [constructor|done]|].
  by rewrite andb_true_iff, Forall_cons, entry_shapeb_spec, IH.
Qed.

Lemma spec_shapeb_spec (v : jvalue) : spec_shapeb v = true <-> spec_shape v.
Proof.
  unfold spec_shapeb, spec_shape. destruct v as [| | | | |props]; try (split; [done|naive_solver]).
  rewrite andb_true_iff, keys_known_spec.
  destruct (jget props "overrides") as [[| | | |[|e es]|]|] eqn:Ho; try naive_solver.
  rewrite forallb_entry_shapeb. naive_solver.
Qed.

Lemma spec_shapeb_reflect (v : jvalue) : reflect (spec_shape v) (spec_shapeb v).
Proof. apply iff_reflect. symmetry. apply spec_shapeb_spec. Qed.

(** Keys drawn from a list inside the schema's keys pass the schema's
    key check, and a key outside that list is absent. *)
Lemma keys_known_sub (small allowed : list string) (props : list (string * jvalue)) :
  small ⊆ allowed -> Forall (fun kv => kv.1 ∈ small) props -> keys_known allowed props = true.
Proof.
  intros Hsub Hk. apply keys_known_spec. eapply Forall_impl; [exact Hk|]. intros kv Hkv. by apply Hsub.
Qed.

Lemma jget_absent (small : list string) (props : list (string * jvalue)) (k : string) :
  Forall (fun kv => kv.1 ∈ small) props -> k ∉ small -> jget props k = None.
Proof.
  intros Hk Hn. apply jget_None_iff. intros (kv & -> & Hin)%list_elem_of_fmap.
  apply Hn. by eapply Forall_forall in Hk.
Qed.

Lemma decode_entry (e : jvalue) : entry_shape e -> decode_override e = Ok (entry_override e).
Proof.
  intros (props & -> & Hk & (files & Hf & Hne) & (rules & Hr)).
  unfold decode_override, entry_override. cbn [jprop].
  rewrite (keys_known_sub ["files"; "rules"]) by (done || set_solver).
  rewrite Hf, Hr, (jget_absent _ _ "excludedFiles" Hk) by set_solver.
  cbn [decode_patterns decode_rules result_bind]. rewrite Encode.strings_of_map_JStr.
  cbn [default andb]. by rewrite bool_decide_eq_false_2.
Qed.

Lemma all_ok_entries (es : list jvalue) :
  Forall entry_shape es -> all_ok (map decode_override es) = Ok (map entry_override es).
Proof.
  induction 1 as [|e es He _ IH]; [done|].
  cbn [map all_ok]. rewrite decode_entry by done. cbn [result_bind]. by rewrite IH.
Qed.

(** C17: on every object of the spec's shape, the loader's decoding is
    the spec's reading: the blocks in order, each with its [files], no
    [excludedFiles], and its [rules] mapping. *)
Theorem decode_refines_spec (v : jvalue) :
  spec_shape v -> decode_config v = Ok (spec_config v).
Proof.
  intros (props & entries & -> & Hk & Ho & _ & He).
  unfold decode_config, spec_config. cbn [jprop].
  rewrite (keys_known_sub ["overrides"]) by (done || set_solver).
  rewrite (jget_absent _ _ "rules" Hk) by set_solver. rewrite Ho.
  cbn [decode_rules result_bind]. by rewrite all_ok_entries.
Qed.

(** Whatever value line 5 gives [files], the block of lines 4-10 decodes
    to one override whose patterns are the ones that value lists. *)
Lemma decode_line5 (fv : jvalue) :
  decode_config (eslintrc_js_files fv) =
  (files <-? decode_patterns true "files" (Some fv) ;;
   Ok {| cfg_rules := ∅;
         cfg_overrides := [{| ov_files := files; ov_excludedFiles := []; ov_rules := ∅ |}] |}).
Proof. cbn -[decode_patterns]. by destruct (decode_patterns true "files" (Some fv)). Qed.

Lemma decode_patterns_required_ok (what : string) (fv : jvalue) :
  (exists ps, decode_patterns true what (Some fv) = Ok ps) <->
  (exists s, fv = JStr s) \/ (exists ps, ps <> [] /\ fv = JArr (map JStr ps)).
Proof.
  destruct fv as [| | |s|xs|]; cbn [decode_patterns]; try naive_solver.
  destruct (strings_of xs) as [ss|] eqn:E.
  - apply strings_of_spec in E as ->. destruct ss as [|s ss]; cbn.
    + split; [by intros [? ?]|]. intros [[? ?]|(ps & Hps & Hx)]; [done|].
      injection Hx as Hx. symmetry in Hx. by apply map_eq_nil in Hx.
    + split; [intros _; right; by exists (s :: ss)|]. intros _. by eexists.
  - split; [by intros [? ?]|]. intros [[? ?]|(ps & _ & [= ->])]; [done|].
    by rewrite Encode.strings_of_map_JStr in E.
Qed.

(** C18: for every value of line 5, the loader accepts the file exactly
    when the value is a string or a non-empty array of strings, and fails
    with a schema error on [files] otherwise; the spec's shape (section
    8) holds only for the non-empty arrays of strings, so a single string
    is accepted by the loader and outside the spec. *)
Theorem line5_files_accepted (fv : jvalue) :
  ((exists c, decode_config (eslintrc_js_files fv) = Ok c) <->
   (exists s, fv = JStr s) \/ (exists ps, ps <> [] /\ fv = JArr (map JStr ps))) /\
  (forall e, decode_config (eslintrc_js_files fv) = Err e -> e = SchemaError "files") /\
  (spec_shape (eslintrc_js_files fv) <-> exists ps, ps <> [] /\ fv = JArr (map JStr ps)).
Proof.
  rewrite decode_line5, <-(decode_patterns_required_ok "files"), <-spec_shapeb_spec.
  split; [|split].
  - destruct (decode_patterns true "files" (Some fv)); cbn; naive_solver.
  - intros e. destruct fv as [| | | |xs|]; cbn; try congruence.
    destruct strings_of as [[]|]; cbn; congruence.
  - change (spec_shapeb (eslintrc_js_files fv)) with (files_ok (Some fv) && true && true).
    rewrite !andb_true_r, files_ok_spec. naive_solver.
Qed.

(** ** Witnesses *)

Lemma decode_refines_spec_witness :
  spec_shape eslintrc_js_with_example /\
  decode_config eslintrc_js_with_example = Ok (spec_config eslintrc_js_with_example).
Proof.
  assert (H : spec_shape eslintrc_js_with_example)
    by (apply spec_shapeb_spec; vm_compute; reflexivity).
  split; [exact H | apply decode_refines_spec, H].
Defined.

End SpecShape.
