(* ===== verification/Variants.v ===== *)
(** * What other versions of src/.eslintrc.js would do

    Edits of the literal that the source invites, written with its own
    parts ([override_js], [files_js], [overrides_js], [eslintrc_js_files]):
    a second override block after the one of lines 4-10, which shows the
    precedence the order of [overrides] gives (spec section 3: "order
    matters to the consuming tool for precedence"); line 5 holding any one
    pattern, with the load's outcome for each; and line 5 reading
    ["*.vue"], a pattern without "/", which minimatch's [matchBase] option
    matches against the file's name at any depth. *)

From S2P Require Import Prelude JsValue Glob Rules Config EslintRc SpecShape.

Module Variants.
Import Rules Config EslintRc.

(** Lines 3-11 with a second block after the one of lines 4-10, on the
    same files. *)
Definition two_blocks_js (rules1 rules2 : jvalue) : jvalue :=
  JObj [("overrides", JArr [override_js files_js rules1; override_js files_js rules2])].

(** Lines 1-12 with line 5 reading ["files": ["*.vue"]]. *)
Definition eslintrc_js_basename : jvalue :=
  JObj [("overrides", overrides_js (JArr [JStr "*.vue"]) rules_js)].

(** ** Lemmas *)

(** The configuration array of two blocks that set one rule each. *)
Lemma load_two_blocks (base : list string) (k1 k2 : string) (v1 v2 : jvalue) :
  load (two_blocks_js (JObj [(k1, v1)]) (JObj [(k2, v2)])) base =
  Ok [{| el_criteria := None; el_rules := ∅ |};
      {| el_criteria := Some {| ot_includes := [src_pattern]; ot_excludes := [];
                                ot_basePath := base; ot_endsWithWildcard := false |};
         el_rules := {[k1 := v1]} |};
      {| el_criteria := Some {| ot_includes := [src_pattern]; ot_excludes := [];
                                ot_basePath := base; ot_endsWithWildcard := false |};
         el_rules := {[k2 := v2]} |}].
Proof. reflexivity. Qed.

Lemma load_basename (base : list string) :
  load eslintrc_js_basename base =
  Ok [{| el_criteria := None; el_rules := ∅ |};
      {| el_criteria := Some {| ot_includes := ["*.vue"]; ot_excludes := [];
                                ot_basePath := base; ot_endsWithWildcard := false |};
         el_rules := ∅ |}].
Proof. reflexivity. Qed.

Lemma last_no_empty (f : list string) :
  no_empty_segment f -> f <> [] -> List.last f "" <> "".
Proof.
  induction f as [|s [|s' f] IH]; intros Hne Hf; [done| |];
    inversion Hne as [|? ? Hs Hne']; subst; [done|].
  apply IH; [done|discriminate].
Qed.

(** minimatch's [filename] of a path without empty segments is its last
    segment. *)
Lemma base_name_last (f : list string) :
  no_empty_segment f -> Glob.base_name f = List.last f "".
Proof.
  induction f as [|s [|s' f] IH]; [done|done|]. intros Hne.
  inversion Hne as [|? ? Hs Hne']; subst. change (Glob.base_name (s :: s' :: f)) with
    (let b := Glob.base_name (s' :: f) in if String.eqb b "" then s else b).
  cbv zeta. rewrite IH by done. change (List.last (s :: s' :: f) "") with (List.last (s' :: f) "").
  destruct (String.eqb_spec (List.last (s' :: f) "") "") as [He|]; [|done].
  exfalso. by apply (last_no_empty (s' :: f)).
Qed.

(** A one-segment pattern is matched against the file's name. *)
Lemma minimatch_star_vue (f : list string) :
  Glob.minimatch "*.vue" f =
  Glob.path_match [Glob.SegPat (Glob.TStar :: map Glob.TChar (list_ascii_of_string ".vue"))]
                  [Glob.base_name f].
Proof.
  match goal with |- _ = ?b => transitivity (if b || false then true else false) end;
    [vm_compute; reflexivity | by destruct Glob.path_match].
Qed.

(** C16: the order of the [overrides] blocks decides precedence: with a
    second block after the one of lines 4-10, on the same files and
    setting the same rule to another severity, the later block's setting
    is the one in force for every file both apply to, for every rule
    name under which an object inherits nothing. *)
Theorem later_block_wins (base f : list string) (k s1 s2 : string) :
  plain_key k = true -> no_empty_segment f -> f <> [] -> in_src_with_ext f ->
  exists els, load (two_blocks_js (JObj [(k, JStr s1)]) (JObj [(k, JStr s2)])) base = Ok els /\
              rule_of (extractRules els (base ++ f)) k = Ok (Some [JStr s2]).
Proof.
  intros Hk Hne Hf Hin. eexists. split; [apply load_two_blocks|].
  unfold extractRules. rewrite !filter_cons, filter_nil, decide_True by done.
  rewrite !decide_True by (by apply element_applies_src).
  rewrite extract_rules_Ok; [|repeat constructor; apply merge_throws_false;
                              by apply map_Forall_empty || apply map_Forall_singleton].
  unfold spec_rule. rewrite Hk. cbn [map rev app omap list_omap el_rules].
  rewrite !lookup_singleton_eq, lookup_empty. reflexivity.
Qed.


(** C25: were line 5 ["*.vue"], a pattern without "/", matchBase would
    make the block apply to every ".vue" file below the configuration's
    directory, at any depth and not only under "src". *)
Theorem basename_pattern_applies (base f : list string) :
  no_empty_segment f -> f <> [] ->
  exists b e, load eslintrc_js_basename base = Ok [b; e] /\
    (element_applies e (base ++ f) = true <->
     exists stem, list_ascii_of_string (List.last f "") = stem ++ list_ascii_of_string ".vue").
Proof.
  intros Hne Hf. do 2 eexists. split; [apply load_basename|].
  cbn [element_applies el_criteria]. unfold tester_test. cbn [ot_includes ot_excludes ot_basePath].
  rewrite relative_segments_app by done. cbn [existsb match_pattern minimatch_matcher].
  rewrite orb_false_r, andb_true_r, minimatch_star_vue, Glob.path_match_last, base_name_last by done.
  rewrite <-Glob.seg_ok_star_suffix by (simpl; lia). naive_solver.
Qed.

(** ** Witnesses *)

Lemma later_block_wins_witness :
  exists els, load (two_blocks_js (JObj [("no-console", JStr "error")])
                                  (JObj [("no-console", JStr "off")])) ["home"; "app"] = Ok els /\
              rule_of (extractRules els (["home"; "app"] ++ ["src"; "main.js"])) "no-console" =
              Ok (Some [JStr "off"]).
Proof.
  apply later_block_wins; [reflexivity | repeat constructor; discriminate | discriminate |].
  apply src_pattern_matches; [repeat constructor; discriminate|]. vm_compute. reflexivity.
Defined.

Lemma basename_pattern_applies_witness :
  exists b e, load eslintrc_js_basename ["home"; "app"] = Ok [b; e] /\
    (element_applies e (["home"; "app"] ++ ["components"; "nav"; "Menu.vue"]) = true <->
     exists stem, list_ascii_of_string (List.last ["components"; "nav"; "Menu.vue"] "") =
                  stem ++ list_ascii_of_string ".vue").
Proof. apply basename_pattern_applies; [repeat constructor; discriminate | discriminate]. Defined.

End Variants.
